(** * superschema: a shallow embedding of [src/index.js]

    The validator walks a JavaScript value against a pattern and either
    returns or throws.  The embedding keeps the program's shape:

    - JavaScript values are an inductive type [value]; objects, arrays,
      functions and dates carry the identity of their reference, because
      [===] compares references;
    - [throw] is the [Throws] constructor of [completion]; besides the
      [BackendError] the module constructs, the runtime's [TypeError] and
      whatever a caller-supplied function throws are exceptions too;
    - the module variable [koInstance] is passed explicitly, and [extend]
      returns its new content;
    - the two things the module does not define are parameters of the
      development: what calling a function value does ([invoke]) and what a
      property read finds on the built-in prototypes ([inherited]). *)

From Stdlib Require Import String Ascii List ZArith Bool Arith Lia.
From Stdlib Require Import DecimalString.
Import ListNotations.
Open Scope string_scope.

(** ** Values *)

Definition loc := nat.

(** Numbers: [NaN] and the Number values of the integers.  [Finite z] is
    the Number value of the integer literal [z]: [z] itself up to [2^53],
    the nearest double beyond, [Infinity] from [2^1024] on.  The program
    tests numbers for truthiness, compares them with [===] and prints them
    in messages. *)
Inductive number : Type :=
| NaN
| Finite (z : Z).

(** [infinity] stands for [Infinity]: it is no double itself. *)
Definition infinity : Z := (2 ^ 1024)%Z.

(** The double nearest to [y >= 0], ties to the even mantissa. *)
Definition round_to_double (y : Z) : Z :=
  (let bits := Z.log2 y + 1 in
   if bits <=? 53 then y
   else
     let shift := bits - 53 in
     let q := Z.shiftr y shift in
     let r := y - Z.shiftl q shift in
     let half := Z.shiftl 1 (shift - 1) in
     let q' := if (half <? r) || ((r =? half) && Z.odd q) then q + 1 else q in
     let d := Z.shiftl q' shift in
     if infinity <=? d then infinity else d)%Z.

(** The Number value of the integer [z]. *)
Definition double (z : Z) : Z :=
  (if z <? 0 then - round_to_double (- z) else round_to_double z)%Z.

#[local] Set Warnings "-register-all".

(** [props] lists the own enumerable properties of a plain object in the
    order [for ... in] visits them. *)
Inductive value : Type :=
| VUndefined
| VNull
| VBoolean (b : bool)
| VNumber (n : number)
| VString (s : string)
| VObject (id : loc) (props : list (string * value))
| VArray (id : loc) (elems : list value)
| VFunction (id : loc)
| VDate (id : loc).

Inductive exn : Type :=
| BackendError (message code : string) (status : Z)
| TypeError
| Thrown (v : value).

Inductive completion (A : Type) : Type :=
| Returns (a : A)
| Throws (e : exn).
Arguments Returns {A} a.
Arguments Throws {A} e.

Definition bind {A B} (c : completion A) (k : A -> completion B) : completion B :=
  match c with
  | Returns a => k a
  | Throws e => Throws e
  end.

(** The recursive checkers are defined with fuel; [None] means the fuel ran
    out.  [checkPattern_total] shows that the entry points never do. *)
Definition fueled (A : Type) : Type := option (completion A).

Definition fbind {A B} (c : fueled A) (k : A -> fueled B) : fueled B :=
  match c with
  | Some (Returns a) => k a
  | Some (Throws e) => Some (Throws e)
  | None => None
  end.

Definition lift {A} (c : completion A) : fueled A := Some c.

Declare Scope js_scope.
Delimit Scope js_scope with js.
Notation "x <- c ;; k" := (bind c (fun x => k))
  (at level 61, c at next level, right associativity) : js_scope.
Notation "c ;; k" := (bind c (fun _ => k))
  (at level 61, right associativity) : js_scope.
Notation "x <~ c ;; k" := (fbind c (fun x => k))
  (at level 61, c at next level, right associativity) : js_scope.
Notation "c ;;; k" := (fbind c (fun _ => k))
  (at level 61, right associativity) : js_scope.
Open Scope js_scope.

Definition done : completion unit := Returns tt.

(** ** The operators the program uses *)

Definition typeof (v : value) : string :=
  match v with
  | VUndefined => "undefined"
  | VNull => "object"
  | VBoolean _ => "boolean"
  | VNumber _ => "number"
  | VString _ => "string"
  | VObject _ _ => "object"
  | VArray _ _ => "object"
  | VFunction _ => "function"
  | VDate _ => "object"
  end.

(** [if (v)], [!v], [a || b]. *)
Definition truthy (v : value) : bool :=
  match v with
  | VUndefined => false
  | VNull => false
  | VBoolean b => b
  | VNumber NaN => false
  | VNumber (Finite z) => negb (Z.eqb z 0)
  | VString s => negb (String.eqb s "")
  | _ => true
  end.

Definition number_equals (a b : number) : bool :=
  match a, b with
  | Finite x, Finite y => Z.eqb (double x) (double y)
  | _, _ => false
  end.

(** [a === b]: by value on primitives ([NaN] equals nothing), by reference
    on everything else. *)
Definition strict_equals (a b : value) : bool :=
  match a, b with
  | VUndefined, VUndefined => true
  | VNull, VNull => true
  | VBoolean x, VBoolean y => Bool.eqb x y
  | VNumber x, VNumber y => number_equals x y
  | VString x, VString y => String.eqb x y
  | VObject i _, VObject j _ => Nat.eqb i j
  | VArray i _, VArray j _ => Nat.eqb i j
  | VFunction i, VFunction j => Nat.eqb i j
  | VDate i, VDate j => Nat.eqb i j
  | _, _ => false
  end.

Definition isArray (v : value) : bool :=
  match v with
  | VArray _ _ => true
  | _ => false
  end.

Definition instanceof_Date (v : value) : bool :=
  match v with
  | VDate _ => true
  | _ => false
  end.

Definition is_primitive (v : value) : bool :=
  match v with
  | VObject _ _ | VArray _ _ | VFunction _ | VDate _ => false
  | _ => true
  end.

Definition string_of_nat (n : nat) : string :=
  NilEmpty.string_of_uint (Nat.to_uint n).

Definition decimal (z : Z) : string := NilZero.string_of_int (Z.to_int z).

(** The integer with the fewest significant digits whose Number value is
    the double [x >= 2^53], the one nearest to [x] where two have as few:
    [k] digits are tried before [k + 1]; [digits] is the number of digits
    of [x]. *)
Fixpoint shortest_decimal (fuel : nat) (k : Z) (x digits : Z) : Z :=
  match fuel with
  | O => x
  | S fuel =>
      (let unit := 10 ^ (digits - k) in
       let low := (x / unit) * unit in
       let high := low + unit in
       let low_fits := Z.eqb (double low) x in
       let high_fits := Z.eqb (double high) x in
       if low_fits && high_fits then (if x - low <=? high - x then low else high)
       else if low_fits then low
       else if high_fits then high
       else shortest_decimal fuel (k + 1) x digits)%Z
  end.

Fixpoint strip_zeros (s : string) : string :=
  match s with
  | EmptyString => EmptyString
  | String c rest =>
      match strip_zeros rest with
      | EmptyString => if Ascii.eqb c "0" then EmptyString else String c EmptyString
      | rest' => String c rest'
      end
  end.

(** [String(x)] for a double [x >= 0]: the digits of the shortest decimal
    that reads back as [x], in full up to 21 digits and as
    [d.ddde+n] beyond. *)
Definition string_of_double (x : Z) : string :=
  if (x <? 2 ^ 53)%Z then decimal x
  else if (x =? infinity)%Z then "Infinity"
  else
    let digits := Z.of_nat (String.length (decimal x)) in
    let text := decimal (shortest_decimal (Z.to_nat digits) 1 x digits) in
    let n := Z.of_nat (String.length text) in
    if (n <=? 21)%Z then text
    else
      match strip_zeros text with
      | EmptyString => text
      | String c EmptyString => String c ("e+" ++ decimal (n - 1))
      | String c rest => String c ("." ++ rest ++ "e+" ++ decimal (n - 1))
      end.

(** [String(n)]. *)
Definition string_of_number (n : number) : string :=
  match n with
  | NaN => "NaN"
  | Finite z =>
      let x := double z in
      if (x <? 0)%Z then "-" ++ string_of_double (- x) else string_of_double x
  end.

(** [String(v)] on the primitives. *)
Definition string_of_primitive (v : value) : string :=
  match v with
  | VUndefined => "undefined"
  | VNull => "null"
  | VBoolean true => "true"
  | VBoolean false => "false"
  | VNumber n => string_of_number n
  | VString s => s
  | _ => ""
  end.

(** [s.split(sep)] for a one-character separator: never empty. *)
Fixpoint split (sep : ascii) (s : string) : list string :=
  match s with
  | EmptyString => [EmptyString]
  | String c rest =>
      if Ascii.eqb c sep then EmptyString :: split sep rest
      else match split sep rest with
           | h :: t => String c h :: t
           | [] => [String c EmptyString]
           end
  end.

(** [l.join(sep)]. *)
Definition join (sep : string) (l : list string) : string := String.concat sep l.

(** [l.slice(1)]. *)
Definition slice1 {A} (l : list A) : list A := tl l.

(** [pattern.split(" ")[0]] and [pattern.split(" ").slice(1).join(" ")]. *)
Definition currentType_of (pattern : string) : string :=
  hd "" (split " " pattern).

Definition remainingPattern_of (pattern : string) : string :=
  join " " (slice1 (split " " pattern)).

(** ** Property reads *)

Definition indices (elems : list value) : list string :=
  map string_of_nat (seq 0 (length elems)).

Fixpoint assoc {A} (key : string) (l : list (string * A)) : option A :=
  match l with
  | [] => None
  | (k, a) :: rest => if String.eqb k key then Some a else assoc key rest
  end.

(** The own property [key] of [v], if it has one. *)
Definition own (v : value) (key : string) : option value :=
  match v with
  | VObject _ props => assoc key props
  | VArray _ elems =>
      if String.eqb key "length" then Some (VNumber (Finite (Z.of_nat (length elems))))
      else assoc key (combine (indices elems) elems)
  | _ => None
  end.

(** The names [for (var prop in v)] visits. *)
Definition keys (v : value) : list string :=
  match v with
  | VObject _ props => map fst props
  | VArray _ elems => indices elems
  | _ => []
  end.

Inductive prototype : Type :=
| ObjectPrototype
| ArrayPrototype
| FunctionPrototype
| DatePrototype
| BooleanPrototype
| NumberPrototype
| StringPrototype.

Definition prototype_of (v : value) : option prototype :=
  match v with
  | VUndefined | VNull => None
  | VBoolean _ => Some BooleanPrototype
  | VNumber _ => Some NumberPrototype
  | VString _ => Some StringPrototype
  | VObject _ _ => Some ObjectPrototype
  | VArray _ _ => Some ArrayPrototype
  | VFunction _ => Some FunctionPrototype
  | VDate _ => Some DatePrototype
  end.

(** A pattern's control keys and the keys [for ... in] found on it are read
    as own properties: no built-in prototype has a member of one of those
    names.  Reading a property of [null] is a [TypeError]. *)
Definition property (pattern : value) (key : string) : value :=
  match own pattern key with
  | Some v => v
  | None => VUndefined
  end.

Definition member (pattern : value) (key : string) : completion value :=
  match pattern with
  | VUndefined | VNull => Throws TypeError
  | _ => Returns (property pattern key)
  end.

Fixpoint size (v : value) : nat :=
  match v with
  | VObject _ props => S (list_sum (map (fun kv => size (snd kv)) props))
  | VArray _ elems => S (list_sum (map size elems))
  | _ => 0
  end.

(** ** The module *)

Definition defaultName : string := "configObject".

(** [name || defaultName]; [None] is a call without the argument. *)
Definition name_or_default (name : option string) : string :=
  match name with
  | Some n => if truthy (VString n) then n else defaultName
  | None => defaultName
  end.
Definition nonRequiredName : string := "optional".
Definition nullableName : string := "nullable".

Definition throwConfigError {A} (message : string) : completion A :=
  Throws (BackendError message "INVALID_CONFIG" 500).

Definition throwPatternError {A} (message : string) : completion A :=
  Throws (BackendError message "INVALID_INPUT_PATTERN" 400).

(** [l.forEach(function(element, index) { ... })]: the first exception ends
    the loop. *)
Fixpoint forEach_from (index : nat) (l : list value)
    (f : value -> nat -> fueled unit) : fueled unit :=
  match l with
  | [] => lift done
  | element :: rest => f element index ;;; forEach_from (S index) rest f
  end.

Definition forEach (array : value) (f : value -> nat -> fueled unit) : fueled unit :=
  match array with
  | VArray _ elems => forEach_from 0 elems f
  | _ => lift (Throws TypeError)
  end.

(** ** A host for the examples

    No built-in prototype member is read in the examples.  Function 1 is
    the [isObservable] of a reactive library that takes function 2, and
    nothing else, for an observable; function 2 returns its contents, the
    string ["x"]; every other function returns [undefined]. *)
Definition example_invoke (f : loc) (this : value) (args : list value) : completion value :=
  match f, args with
  | 1, VFunction 2 :: _ => Returns (VBoolean true)
  | 1, _ => Returns (VBoolean false)
  | 2, _ => Returns (VString "x")
  | _, _ => Returns VUndefined
  end.

(** The same host, except that function 2, the observable, throws when
    it is read. *)
Definition throwing_invoke (f : loc) (this : value) (args : list value) : completion value :=
  match f, args with
  | 1, VFunction 2 :: _ => Returns (VBoolean true)
  | 1, _ => Returns (VBoolean false)
  | 2, _ => Throws (Thrown (VString "disposed"))
  | _, _ => Returns VUndefined
  end.

Definition example_inherited (p : prototype) (key : string) : value := VUndefined.

Definition example_ko : value := VObject 10 [("isObservable", VFunction 1)].

(** A host in which [Object.prototype] has its member [constructor], the
    function 100, as every runtime has. *)
Definition constructor_inherited (p : prototype) (key : string) : value :=
  if String.eqb key "constructor" then VFunction 100 else VUndefined.

(** ** What the claims speak of *)

(** The program's own two kinds of error. *)
Definition is_config_error (e : exn) : Prop :=
  exists message, e = BackendError message "INVALID_CONFIG" 500.

Definition is_pattern_error (e : exn) : Prop :=
  exists message, e = BackendError message "INVALID_INPUT_PATTERN" 400.

Definition structured (c : completion unit) : bool :=
  match c with
  | Returns _ => true
  | Throws (BackendError _ code status) =>
      (String.eqb code "INVALID_CONFIG" && Z.eqb status 500)
      || (String.eqb code "INVALID_INPUT_PATTERN" && Z.eqb status 400)
  | Throws _ => false
  end.

(** The three keys the [for ... in] loop of [checkObjectPattern] skips. *)
Definition skipped_key (prop : string) : bool :=
  String.eqb prop "__type" || String.eqb prop "__required" || String.eqb prop "__nullable".

(** [type_token pattern X]: after its leading [optional] and [nullable]
    tokens, the string pattern starts with the token [X]. *)
Inductive type_token : string -> string -> Prop :=
| type_token_here pattern :
    String.eqb (currentType_of pattern) nonRequiredName = false ->
    String.eqb (currentType_of pattern) nullableName = false ->
    type_token pattern (currentType_of pattern)
| type_token_optional pattern X :
    String.eqb (currentType_of pattern) nonRequiredName = true ->
    type_token (remainingPattern_of pattern) X ->
    type_token pattern X
| type_token_nullable pattern X :
    String.eqb (currentType_of pattern) nullableName = true ->
    type_token (remainingPattern_of pattern) X ->
    type_token pattern X.

(** [s] does not contain the separator. *)
Fixpoint no_sep (sep : ascii) (s : string) : bool :=
  match s with
  | EmptyString => true
  | String c rest => negb (Ascii.eqb c sep) && no_sep sep rest
  end.

(** [has_modifier m pattern]: the token [m] is among the [optional] and
    [nullable] tokens the string pattern starts with. *)
Inductive has_modifier (m : string) : string -> Prop :=
| has_modifier_here pattern :
    currentType_of pattern = m ->
    has_modifier m pattern
| has_modifier_later pattern :
    currentType_of pattern = nonRequiredName \/ currentType_of pattern = nullableName ->
    has_modifier m (remainingPattern_of pattern) ->
    has_modifier m pattern.

Section Host.

(** [invoke f this args]: the call of the function at [f]. *)
Variable invoke : loc -> value -> list value -> completion value.

(** [inherited p key]: what a read of [key] finds on the prototype chain
    starting at [p]; [VUndefined] when nothing is found. *)
Variable inherited : prototype -> string -> value.

(** [v[key]]. *)
Definition Get (v : value) (key : string) : completion value :=
  match prototype_of v with
  | None => Throws TypeError
  | Some p => Returns (match own v key with
                       | Some x => x
                       | None => inherited p key
                       end)
  end.

(** The value of [v[key]] where the read does not raise. *)
Definition read (v : value) (key : string) : value :=
  match Get v key with
  | Returns x => x
  | Throws _ => VUndefined
  end.

(** [f.call(this, ...args)]. *)
Definition call (f this : value) (args : list value) : completion value :=
  match f with
  | VFunction id => invoke id this args
  | _ => Throws TypeError
  end.

(** One step of OrdinaryToPrimitive: [o[method]()] when that is callable
    and returns a primitive. *)
Definition try_method (o : value) (method : string) : completion (option value) :=
  f <- Get o method ;;
  match f with
  | VFunction id =>
      r <- invoke id o [] ;;
      Returns (if is_primitive r then Some r else None)
  | _ => Returns None
  end.

Definition OrdinaryToPrimitive (o : value) (first second : string) : completion value :=
  r <- try_method o first ;;
  match r with
  | Some p => Returns p
  | None =>
      r <- try_method o second ;;
      match r with
      | Some p => Returns p
      | None => Throws TypeError
      end
  end.

(** The conversion of a property key, [o[v]]. *)
Definition ToPropertyKey (v : value) : completion string :=
  if is_primitive v then Returns (string_of_primitive v)
  else p <- OrdinaryToPrimitive v "toString" "valueOf" ;;
       Returns (string_of_primitive p).

(** [s + v] for a string [s]. *)
Definition append_value (s : string) (v : value) : completion string :=
  if is_primitive v then Returns (s ++ string_of_primitive v)
  else p <- (if instanceof_Date v then OrdinaryToPrimitive v "toString" "valueOf"
             else OrdinaryToPrimitive v "valueOf" "toString") ;;
       Returns (s ++ string_of_primitive p).

(** *** extend *)

(** Code that reads and writes the module variable [koInstance]. *)
Definition stateful (A : Type) : Type := value -> completion A * value.

Definition sbind {A B} (c : stateful A) (k : A -> stateful B) : stateful B :=
  fun koInstance =>
    match c koInstance with
    | (Returns a, koInstance') => k a koInstance'
    | (Throws e, koInstance') => (Throws e, koInstance')
    end.

Definition pure {A} (c : completion A) : stateful A :=
  fun koInstance => (c, koInstance).

(** [koInstance = ko]. *)
Definition set_koInstance (ko : value) : stateful unit :=
  fun _ => (done, ko).

Definition extendSuperSchema (config : value) : stateful unit :=
  sbind (pure (if negb (String.eqb (typeof config) "object") then
                 throwConfigError "'config' has to be an object!"
               else done)) (fun _ =>
  sbind (pure (knockout <- Get config "knockout" ;;
               if truthy knockout then Returns knockout else Get config "ko")) (fun ko =>
  sbind (pure (if negb (truthy ko) then
                 throwConfigError "superschema.extend called without any known parameters!"
               else done)) (fun _ =>
  sbind (pure (invalid <- (if negb (String.eqb (typeof ko) "object") then Returns true
                           else isObservable <- Get ko "isObservable" ;;
                                Returns (negb (String.eqb (typeof isObservable) "function"))) ;;
               if (invalid : bool) then throwConfigError "Invalid 'knockout' parameter given!"
               else done)) (fun _ =>
  set_koInstance ko)))).

Section Checks.

(** The module variable [koInstance], as the checks find it. *)
Variable koInstance : value.

(** *** The type checkers *)

Definition createSimpleTypeChecker (type : string) (value : value) (name : string)
    : completion unit :=
  if negb (String.eqb (typeof value) type) then
    throwPatternError (name ++ " should have " ++ type ++ " type!")
  else done.

Definition checkArray (value : value) (name : string) : completion unit :=
  if negb (isArray value) then throwPatternError (name ++ " has to be an array!")
  else done.

Definition checkObservable (value : value) (name : string) : completion unit :=
  if negb (truthy koInstance) then
    throwConfigError
      "Observable checking is not possible because no knockout instance is given!"
  else
    isObservable <- Get koInstance "isObservable" ;;
    r <- call isObservable koInstance [value] ;;
    if negb (truthy r) then throwPatternError (name ++ " has to be an observable!")
    else done.

Definition checkDate (value : value) (name : string) : completion unit :=
  if negb (instanceof_Date value) then
    throwPatternError (name ++ " has to be a date object!")
  else done.

Definition typeCheckers : list (string * (value -> string -> completion unit)) :=
  [ ("array", checkArray);
    ("boolean", createSimpleTypeChecker "boolean");
    ("date", checkDate);
    ("function", createSimpleTypeChecker "function");
    ("number", createSimpleTypeChecker "number");
    ("object", createSimpleTypeChecker "object");
    ("observable", checkObservable);
    ("string", createSimpleTypeChecker "string") ].

(** The registry is an object literal: a read of a name it does not define
    goes on to [Object.prototype].  Its reference is passed as [this] to
    what is called through it. *)
Definition typeCheckers_this : value := VObject 0 [].

Inductive slot : Type :=
| Checker (f : value -> string -> completion unit)
| Member (v : value).

(** [typeCheckers[type]]. *)
Definition typeCheckers_get (type : string) : slot :=
  match assoc type typeCheckers with
  | Some f => Checker f
  | None => Member (inherited ObjectPrototype type)
  end.

Definition slot_truthy (s : slot) : bool :=
  match s with
  | Checker _ => true
  | Member v => truthy v
  end.

Definition checkType (value type : value) (name : string) : completion unit :=
  key <- ToPropertyKey type ;;
  if negb (slot_truthy (typeCheckers_get key)) then
    message <- append_value "Unknown type: " type ;;
    throwConfigError message
  else
    match typeCheckers_get key with
    | Checker f => f value name
    | Member f => call f typeCheckers_this [value; VString name] ;; done
    end.

(** [values] holds the elements of the array passed in; the one caller has
    tested [Array.isArray] before. *)
Fixpoint checkAllowedValues (item : value) (values : list value) (name : string)
    : completion unit :=
  match values with
  | [] => throwPatternError ("The value of " ++ name ++ " is not among the allowed ones!")
  | v :: rest =>
      if strict_equals item v then done else checkAllowedValues item rest name
  end.

(** *** String patterns *)

Section StringKnot.

(** The recursive reference to [checkStringPattern]. *)
Variable checkStringPattern : value -> string -> string -> fueled unit.

Definition checkStringPattern_body (item : value) (pattern name : string) : fueled unit :=
  let currentType := currentType_of pattern in
  let remainingPattern := remainingPattern_of pattern in
  if String.eqb currentType nonRequiredName then
    if strict_equals item VUndefined then lift done
    else checkStringPattern item remainingPattern name
  else if String.eqb currentType nullableName then
    if strict_equals item VNull then lift done
    else checkStringPattern item remainingPattern name
  else if strict_equals item VUndefined then
    lift (throwPatternError (name ++ " is mandatory!"))
  else if strict_equals item VNull then
    lift (throwPatternError (name ++ " shouldn't be null!"))
  else
    lift (checkType item (VString currentType) name) ;;;
    if truthy (VString remainingPattern) then
      if String.eqb currentType "array" then
        forEach item (fun element index =>
          checkStringPattern element remainingPattern
            (name ++ "[" ++ string_of_nat index ++ "]"))
      else if String.eqb currentType "observable" then
        contents <~ lift (call item VUndefined []) ;;
        checkStringPattern contents remainingPattern (name ++ "()")
      else
        lift (throwConfigError ("Invalid pattern: " ++ pattern))
    else lift done.

End StringKnot.

Fixpoint checkStringPattern_fuel (fuel : nat) : value -> string -> string -> fueled unit :=
  match fuel with
  | O => fun _ _ _ => None
  | S fuel => checkStringPattern_body (checkStringPattern_fuel fuel)
  end.

(** Every recursive call is on a shorter pattern. *)
Definition checkStringPattern (item : value) (pattern name : string) : fueled unit :=
  checkStringPattern_fuel (S (String.length pattern)) item pattern name.

(** *** Object patterns *)

Section Knot.

(** The recursive reference to [checkPattern]; [None] is a call without
    the third argument. *)
Variable checkPattern : value -> value -> option string -> fueled unit.

(** The [keys.forEach] of [checkShorthandPattern]: [current] and [name]
    after the walk. *)
Fixpoint walk (keys : list string) (current : value) (name : string)
    : completion (value * string) :=
  match keys with
  | [] => Returns (current, name)
  | key :: rest =>
      if negb (String.eqb (typeof current) "object") then
        throwPatternError (name ++ " should have object type!")
      else
        next <- Get current key ;;
        walk rest next (name ++ "." ++ key)
  end.

Definition checkShorthandPattern (item : value) (prop : string) (pattern : value)
    (name : string) : fueled unit :=
  let keys := split "." prop in
  leaf <~ lift (walk keys item name) ;;
  checkPattern (fst leaf) pattern (Some (snd leaf)).

(** The [for (var prop in pattern)] loop. *)
Fixpoint checkProperties (props : list string) (item pattern : value) (name : string)
    : fueled unit :=
  match props with
  | [] => lift done
  | prop :: rest =>
      if String.eqb prop "__type" || String.eqb prop "__required"
         || String.eqb prop "__nullable" then
        checkProperties rest item pattern name
      else
        sub <~ lift (member pattern prop) ;;
        checkShorthandPattern item prop sub name ;;;
        checkProperties rest item pattern name
  end.

Definition checkObjectPattern (item pattern : value) (name : string) : fueled unit :=
  if strict_equals item VUndefined then
    required <~ lift (member pattern "__required") ;;
    if negb (strict_equals required (VBoolean false)) then
      lift (throwPatternError (name ++ " is mandatory!"))
    else lift done
  else if strict_equals item VNull then
    nullable <~ lift (member pattern "__nullable") ;;
    if negb (strict_equals nullable (VBoolean true)) then
      lift (throwPatternError (name ++ " shouldn't be null!"))
    else lift done
  else
    allowedValues <~ lift (member pattern "__allowedValues") ;;
    if truthy allowedValues then
      match allowedValues with
      | VArray _ values => lift (checkAllowedValues item values name)
      | _ => lift (throwConfigError
          "Invalid pattern: the __allowedValues property always has to be an array!")
      end
    else
      type <~ lift (member pattern "__type") ;;
      let type := if truthy type then type else VString "object" in
      lift (checkType item type name) ;;;
      if strict_equals type (VString "array") then
        elements <~ lift (member pattern "__elements") ;;
        if negb (strict_equals elements VUndefined) then
          forEach item (fun element index =>
            checkPattern element elements
              (Some (name ++ "[" ++ string_of_nat index ++ "]")))
        else lift done
      else if strict_equals type (VString "object") then
        checkProperties (keys pattern) item pattern name
      else if strict_equals type (VString "observable") then
        value <~ lift (member pattern "__value") ;;
        if truthy value then
          contents <~ lift (call item VUndefined []) ;;
          checkPattern contents value (Some (name ++ "()"))
        else lift done
      else lift done.

Definition checkPattern_body (item pattern : value) (name : option string) : fueled unit :=
  let name := name_or_default name in
  if String.eqb (typeof pattern) "object" then
    checkObjectPattern item pattern name
  else if String.eqb (typeof pattern) "string" then
    checkStringPattern item (string_of_primitive pattern) name
  else
    message <~ lift (append_value "Invalid pattern: " pattern) ;;
    lift (throwConfigError message).

End Knot.

Fixpoint checkPattern_fuel (fuel : nat) : value -> value -> option string -> fueled unit :=
  match fuel with
  | O => fun _ _ _ => None
  | S fuel => checkPattern_body (checkPattern_fuel fuel)
  end.

(** Every recursive call is on a property of the pattern. *)
Definition checkPattern (item pattern : value) (name : option string) : fueled unit :=
  checkPattern_fuel (S (size pattern)) item pattern name.

(** [module.exports]. *)
Definition check := checkPattern.

(** The descent the specification describes for an object pattern of type
    [object]: each of [fields], in order, is a dotted path into [item],
    and the value found there is checked against the sub-pattern the
    field maps to. *)
Fixpoint check_fields (fields : list string) (item pattern : value) (name : string)
    : fueled unit :=
  match fields with
  | [] => lift done
  | prop :: rest =>
      checkShorthandPattern check item prop (property pattern prop) name ;;;
      check_fields rest item pattern name
  end.

End Checks.

Definition extend := extendSuperSchema.

(** The exceptions a check can end with: the program's two kinds, the
    runtime's [TypeError], and what a called function threw. *)
Definition host_throws (e : exn) : Prop :=
  exists f this args, invoke f this args = Throws e.

Definition expected_exn (e : exn) : Prop :=
  is_config_error e \/ is_pattern_error e \/ e = TypeError \/ host_throws e.

Definition expected {A} (c : completion A) : Prop :=
  match c with
  | Returns _ => True
  | Throws e => expected_exn e
  end.

Definition fexpected {A} (c : fueled A) : Prop :=
  match c with
  | Some c => expected c
  | None => True
  end.

(** ** Strings *)

Lemma length_append (a b : string) :
  String.length (a ++ b) = String.length a + String.length b.
Proof. induction a as [|c a IH]; simpl; [reflexivity | now rewrite IH]. Qed.

Lemma split_not_nil (sep : ascii) (s : string) : split sep s <> [].
Proof.
  destruct s as [|c s]; simpl; [discriminate|].
  destruct (Ascii.eqb c sep); [discriminate|].
  destruct (split sep s); discriminate.
Qed.

(** [s.split(sep).join(sep)] is [s]. *)
Lemma join_split (sep : ascii) (s : string) :
  join (String sep "") (split sep s) = s.
Proof.
  unfold join. induction s as [|c s IH]; simpl; [reflexivity|].
  destruct (Ascii.eqb_spec c sep) as [->|_].
  - pose proof (split_not_nil sep s) as Hne.
    destruct (split sep s) as [|h t]; [contradiction|].
    change (String.concat (String sep "") ("" :: h :: t))
      with (String sep (String.concat (String sep "") (h :: t))).
    now rewrite IH.
  - pose proof (split_not_nil sep s) as Hne.
    destruct (split sep s) as [|h t]; [contradiction|].
    destruct t as [|h' t]; simpl in *; now rewrite IH.
Qed.

Lemma remainingPattern_shorter (pattern : string) :
  currentType_of pattern <> "" ->
  String.length (remainingPattern_of pattern) < String.length pattern.
Proof.
  unfold currentType_of, remainingPattern_of, slice1. intros Hcur.
  pose proof (join_split " " pattern) as Hjoin. unfold join in *.
  destruct (split " " pattern) as [|h t]; simpl in Hcur; [congruence|].
  destruct t as [|h' t].
  - simpl in *. subst pattern. destruct h; [congruence | simpl; lia].
  - change (String.concat " " (h :: h' :: t))
      with (h ++ " " ++ String.concat " " (h' :: t)) in Hjoin.
    apply (f_equal String.length) in Hjoin.
    rewrite !length_append in Hjoin.
    change (tl (h :: h' :: t)) with (h' :: t).
    change (String.length " ") with 1 in Hjoin. lia.
Qed.

(** ** Fuel *)

Lemma forEach_from_ext (f g : value -> nat -> fueled unit) (l : list value) :
  (forall e i, f e i = g e i) ->
  forall index, forEach_from index l f = forEach_from index l g.
Proof.
  intros Hfg. induction l as [|e l IH]; intros index; simpl; [reflexivity|].
  now rewrite Hfg, IH.
Qed.

Lemma forEach_from_total (f : value -> nat -> fueled unit) (l : list value) :
  (forall e i, f e i <> None) ->
  forall index, forEach_from index l f <> None.
Proof.
  intros Hf. induction l as [|e l IH]; intros index; simpl; [discriminate|].
  specialize (Hf e index). destruct (f e index) as [[[]|]|]; simpl;
    [apply IH | discriminate | contradiction].
Qed.

Lemma forEach_ext (f g : value -> nat -> fueled unit) (array : value) :
  (forall e i, f e i = g e i) -> forEach array f = forEach array g.
Proof. intros H. destruct array; simpl; auto using forEach_from_ext. Qed.

Lemma forEach_total (f : value -> nat -> fueled unit) (array : value) :
  (forall e i, f e i <> None) -> forEach array f <> None.
Proof.
  intros H. destruct array; simpl; try discriminate. now apply forEach_from_total.
Qed.

Lemma fbind_lift_ext {A B} (c : completion A) (k k' : A -> fueled B) :
  (forall a, k a = k' a) -> fbind (lift c) k = fbind (lift c) k'.
Proof. intros H. destruct c; simpl; auto. Qed.

Lemma fbind_lift_total {A B} (c : completion A) (k : A -> fueled B) :
  (forall a, k a <> None) -> fbind (lift c) k <> None.
Proof. intros H. destruct c; simpl; [auto | discriminate]. Qed.

Lemma eqb_not_empty (s t : string) : String.eqb s t = true -> t <> "" -> s <> "".
Proof. intros H%String.eqb_eq. congruence. Qed.

Lemma checkStringPattern_body_ext koInstance
    (rec1 rec2 : value -> string -> string -> fueled unit) item pattern name :
  (currentType_of pattern <> "" ->
   forall i nm, rec1 i (remainingPattern_of pattern) nm
                = rec2 i (remainingPattern_of pattern) nm) ->
  checkStringPattern_body koInstance rec1 item pattern name
  = checkStringPattern_body koInstance rec2 item pattern name.
Proof.
  intros H. unfold checkStringPattern_body.
  destruct (String.eqb (currentType_of pattern) nonRequiredName) eqn:E1.
  { destruct (strict_equals item VUndefined); [reflexivity|].
    apply H. eapply eqb_not_empty; [eassumption | discriminate]. }
  destruct (String.eqb (currentType_of pattern) nullableName) eqn:E2.
  { destruct (strict_equals item VNull); [reflexivity|].
    apply H. eapply eqb_not_empty; [eassumption | discriminate]. }
  destruct (strict_equals item VUndefined); [reflexivity|].
  destruct (strict_equals item VNull); [reflexivity|].
  apply fbind_lift_ext; intros _.
  destruct (truthy (VString (remainingPattern_of pattern))); [|reflexivity].
  destruct (String.eqb (currentType_of pattern) "array") eqn:E3.
  { apply forEach_ext; intros e i.
    apply H. eapply eqb_not_empty; [eassumption | discriminate]. }
  destruct (String.eqb (currentType_of pattern) "observable") eqn:E4; [|reflexivity].
  apply fbind_lift_ext; intros contents.
  apply H. eapply eqb_not_empty; [eassumption | discriminate].
Qed.

Lemma checkStringPattern_body_total koInstance
    (rec : value -> string -> string -> fueled unit) item pattern name :
  (currentType_of pattern <> "" ->
   forall i nm, rec i (remainingPattern_of pattern) nm <> None) ->
  checkStringPattern_body koInstance rec item pattern name <> None.
Proof.
  intros H. unfold checkStringPattern_body.
  destruct (String.eqb (currentType_of pattern) nonRequiredName) eqn:E1.
  { destruct (strict_equals item VUndefined); [discriminate|].
    apply H. eapply eqb_not_empty; [eassumption | discriminate]. }
  destruct (String.eqb (currentType_of pattern) nullableName) eqn:E2.
  { destruct (strict_equals item VNull); [discriminate|].
    apply H. eapply eqb_not_empty; [eassumption | discriminate]. }
  destruct (strict_equals item VUndefined); [discriminate|].
  destruct (strict_equals item VNull); [discriminate|].
  apply fbind_lift_total; intros _.
  destruct (truthy (VString (remainingPattern_of pattern))); [|discriminate].
  destruct (String.eqb (currentType_of pattern) "array") eqn:E3.
  { apply forEach_total; intros e i.
    apply H. eapply eqb_not_empty; [eassumption | discriminate]. }
  destruct (String.eqb (currentType_of pattern) "observable") eqn:E4; [|discriminate].
  apply fbind_lift_total; intros contents.
  apply H. eapply eqb_not_empty; [eassumption | discriminate].
Qed.

Lemma checkStringPattern_fuel_stable koInstance n :
  forall m item pattern name,
    String.length pattern < n -> String.length pattern < m ->
    checkStringPattern_fuel koInstance n item pattern name
    = checkStringPattern_fuel koInstance m item pattern name.
Proof.
  induction n as [|n IH]; intros m item pattern name Hn Hm; [lia|].
  destruct m as [|m]; [lia|]. simpl.
  apply checkStringPattern_body_ext. intros Hcur i nm.
  pose proof (remainingPattern_shorter pattern Hcur).
  apply IH; lia.
Qed.

Lemma checkStringPattern_fuel_total koInstance n :
  forall item pattern name,
    String.length pattern < n ->
    checkStringPattern_fuel koInstance n item pattern name <> None.
Proof.
  induction n as [|n IH]; intros item pattern name Hn; [lia|]. simpl.
  apply checkStringPattern_body_total. intros Hcur i nm.
  pose proof (remainingPattern_shorter pattern Hcur).
  apply IH; lia.
Qed.

(** [checkStringPattern] always comes to an end. *)
Lemma checkStringPattern_total koInstance item pattern name :
  checkStringPattern koInstance item pattern name <> None.
Proof. apply checkStringPattern_fuel_total. lia. Qed.

(** [checkStringPattern] satisfies the equation the source defines it by. *)
Lemma checkStringPattern_unfold koInstance item pattern name :
  checkStringPattern koInstance item pattern name
  = checkStringPattern_body koInstance (checkStringPattern koInstance) item pattern name.
Proof.
  unfold checkStringPattern at 1. simpl.
  apply checkStringPattern_body_ext. intros Hcur i nm.
  pose proof (remainingPattern_shorter pattern Hcur).
  apply checkStringPattern_fuel_stable; lia.
Qed.

Lemma assoc_size (key : string) (props : list (string * value)) (v : value) :
  assoc key props = Some v ->
  size v <= list_sum (map (fun kv => size (snd kv)) props).
Proof.
  induction props as [|[k x] props IH]; simpl; [discriminate|].
  destruct (String.eqb k key); intros H.
  - injection H as ->. lia.
  - specialize (IH H). lia.
Qed.

Lemma assoc_combine_size (key : string) (ks : list string) (elems : list value) v :
  assoc key (combine ks elems) = Some v -> size v <= list_sum (map size elems).
Proof.
  revert elems. induction ks as [|k ks IH]; intros [|e elems]; simpl; try discriminate.
  destruct (String.eqb k key); intros H.
  - injection H as ->. lia.
  - specialize (IH _ H). lia.
Qed.

Lemma own_size (pattern : value) (key : string) (v : value) :
  own pattern key = Some v -> size v < size pattern.
Proof.
  destruct pattern; simpl; try discriminate.
  - intros H%assoc_size. lia.
  - destruct (String.eqb key "length").
    + intros H. injection H as <-. simpl. lia.
    + intros H%assoc_combine_size. lia.
Qed.

Lemma member_size (pattern : value) (key : string) (v : value) :
  member pattern key = Returns v -> 0 < size pattern -> size v < size pattern.
Proof.
  unfold member, property. intros H Hpos.
  destruct (own pattern key) as [x|] eqn:E.
  - apply own_size in E. destruct pattern; simpl in *; try lia; congruence.
  - destruct pattern; simpl in *; try lia; injection H as <-; simpl; lia.
Qed.

Lemma member_defined (pattern : value) (key : string) (v : value) :
  member pattern key = Returns v -> v <> VUndefined -> size v < size pattern.
Proof.
  unfold member, property. intros H Hdef.
  destruct (own pattern key) as [x|] eqn:E.
  - apply own_size in E. destruct pattern; simpl in *; try discriminate; congruence.
  - destruct pattern; simpl in *; congruence.
Qed.

Lemma keys_size (pattern : value) : keys pattern = [] \/ 0 < size pattern.
Proof. destruct pattern; simpl; auto; right; lia. Qed.

Lemma truthy_defined (v : value) : truthy v = true -> v <> VUndefined.
Proof. intros H ->. discriminate. Qed.

Lemma strict_equals_undefined (v : value) :
  strict_equals v VUndefined = false -> v <> VUndefined.
Proof. intros H ->. discriminate. Qed.

Section Extensionality.

Variable koInstance : value.
Variables rec1 rec2 : value -> value -> option string -> fueled unit.

Lemma checkShorthandPattern_ext item prop pattern name :
  (forall i nm, rec1 i pattern nm = rec2 i pattern nm) ->
  checkShorthandPattern rec1 item prop pattern name
  = checkShorthandPattern rec2 item prop pattern name.
Proof. intros H. unfold checkShorthandPattern. now apply fbind_lift_ext. Qed.

Lemma checkProperties_ext props item pattern name :
  0 < size pattern ->
  (forall i sub nm, size sub < size pattern -> rec1 i sub nm = rec2 i sub nm) ->
  checkProperties rec1 props item pattern name
  = checkProperties rec2 props item pattern name.
Proof.
  intros Hpos H. induction props as [|prop props IH]; simpl; [reflexivity|].
  destruct (_ || _); [exact IH|].
  destruct (member pattern prop) as [sub|e] eqn:E; simpl; [|reflexivity].
  rewrite (checkShorthandPattern_ext item prop sub name), IH; [reflexivity|].
  intros i nm. apply H. eapply member_size; eassumption.
Qed.

Lemma checkObjectPattern_ext item pattern name :
  (forall i sub nm, size sub < size pattern -> rec1 i sub nm = rec2 i sub nm) ->
  checkObjectPattern koInstance rec1 item pattern name
  = checkObjectPattern koInstance rec2 item pattern name.
Proof.
  intros H. unfold checkObjectPattern.
  destruct (strict_equals item VUndefined); [reflexivity|].
  destruct (strict_equals item VNull); [reflexivity|].
  apply fbind_lift_ext; intros allowedValues.
  destruct (truthy allowedValues); [reflexivity|].
  destruct (member pattern "__type") as [type|e] eqn:Etype; simpl; [|reflexivity].
  apply fbind_lift_ext; intros _.
  destruct (strict_equals _ (VString "array")).
  { destruct (member pattern "__elements") as [elements|e] eqn:E; simpl; [|reflexivity].
    destruct (strict_equals elements VUndefined) eqn:Eu; simpl; [reflexivity|].
    apply forEach_ext; intros element index. apply H.
    eapply member_defined; eauto using strict_equals_undefined. }
  destruct (strict_equals _ (VString "object")).
  { destruct (keys_size pattern) as [->|Hpos]; [reflexivity|].
    now apply checkProperties_ext. }
  destruct (strict_equals _ (VString "observable")); [|reflexivity].
  destruct (member pattern "__value") as [value|e] eqn:E; simpl; [|reflexivity].
  destruct (truthy value) eqn:Et; [|reflexivity].
  apply fbind_lift_ext; intros contents. apply H.
  eapply member_defined; eauto using truthy_defined.
Qed.

Lemma checkPattern_body_ext item pattern name :
  (forall i sub nm, size sub < size pattern -> rec1 i sub nm = rec2 i sub nm) ->
  checkPattern_body koInstance rec1 item pattern name
  = checkPattern_body koInstance rec2 item pattern name.
Proof.
  intros H. unfold checkPattern_body.
  destruct (String.eqb (typeof pattern) "object"); [|reflexivity].
  now apply checkObjectPattern_ext.
Qed.

End Extensionality.

Section Totality.

Variable koInstance : value.
Variable rec : value -> value -> option string -> fueled unit.

Lemma checkProperties_total props item pattern name :
  0 < size pattern ->
  (forall i sub nm, size sub < size pattern -> rec i sub nm <> None) ->
  checkProperties rec props item pattern name <> None.
Proof.
  intros Hpos H. induction props as [|prop props IH]; simpl; [discriminate|].
  destruct (_ || _); [exact IH|].
  destruct (member pattern prop) as [sub|e] eqn:E; simpl; [|discriminate].
  unfold checkShorthandPattern.
  destruct (walk _ _ _) as [leaf|e]; simpl; [|discriminate].
  pose proof (H (fst leaf) sub (Some (snd leaf))) as Hrec.
  destruct (rec (fst leaf) sub (Some (snd leaf))) as [[[]|]|]; simpl;
    [exact IH | discriminate | apply Hrec; eapply member_size; eassumption].
Qed.

Lemma checkObjectPattern_total item pattern name :
  (forall i sub nm, size sub < size pattern -> rec i sub nm <> None) ->
  checkObjectPattern koInstance rec item pattern name <> None.
Proof.
  intros H. unfold checkObjectPattern.
  destruct (strict_equals item VUndefined).
  { apply fbind_lift_total; intros r. destruct (negb _); discriminate. }
  destruct (strict_equals item VNull).
  { apply fbind_lift_total; intros r. destruct (negb _); discriminate. }
  apply fbind_lift_total; intros allowedValues.
  destruct (truthy allowedValues).
  { destruct allowedValues; discriminate. }
  destruct (member pattern "__type") as [type|e] eqn:Etype; simpl; [|discriminate].
  apply fbind_lift_total; intros _.
  destruct (strict_equals _ (VString "array")).
  { destruct (member pattern "__elements") as [elements|e] eqn:E; simpl; [|discriminate].
    destruct (strict_equals elements VUndefined) eqn:Eu; simpl; [discriminate|].
    apply forEach_total; intros element index. apply H.
    eapply member_defined; eauto using strict_equals_undefined. }
  destruct (strict_equals _ (VString "object")).
  { destruct (keys_size pattern) as [->|Hpos]; [discriminate|].
    now apply checkProperties_total. }
  destruct (strict_equals _ (VString "observable")); [|discriminate].
  destruct (member pattern "__value") as [value|e] eqn:E; simpl; [|discriminate].
  destruct (truthy value) eqn:Et; [|discriminate].
  apply fbind_lift_total; intros contents. apply H.
  eapply member_defined; eauto using truthy_defined.
Qed.

Lemma checkPattern_body_total item pattern name :
  (forall i sub nm, size sub < size pattern -> rec i sub nm <> None) ->
  checkPattern_body koInstance rec item pattern name <> None.
Proof.
  intros H. unfold checkPattern_body.
  destruct (String.eqb (typeof pattern) "object"); [now apply checkObjectPattern_total|].
  destruct (String.eqb (typeof pattern) "string"); [apply checkStringPattern_total|].
  apply fbind_lift_total; discriminate.
Qed.

End Totality.

Lemma checkPattern_fuel_stable koInstance n :
  forall m item pattern name,
    size pattern < n -> size pattern < m ->
    checkPattern_fuel koInstance n item pattern name
    = checkPattern_fuel koInstance m item pattern name.
Proof.
  induction n as [|n IH]; intros m item pattern name Hn Hm; [lia|].
  destruct m as [|m]; [lia|]. simpl.
  apply checkPattern_body_ext. intros i sub nm Hsub. apply IH; lia.
Qed.

Lemma checkPattern_fuel_total koInstance n :
  forall item pattern name,
    size pattern < n -> checkPattern_fuel koInstance n item pattern name <> None.
Proof.
  induction n as [|n IH]; intros item pattern name Hn; [lia|]. simpl.
  apply checkPattern_body_total. intros i sub nm Hsub. apply IH; lia.
Qed.

(** [check] always comes to an end: it returns or throws. *)
Lemma checkPattern_total koInstance item pattern name :
  exists c, checkPattern koInstance item pattern name = Some c.
Proof.
  pose proof (checkPattern_fuel_total koInstance (S (size pattern)) item pattern name) as H.
  unfold checkPattern. destruct (checkPattern_fuel _ _ _ _ _); [eauto|].
  exfalso. apply H; [lia | reflexivity].
Qed.

(** [checkPattern] satisfies the equation the source defines it by. *)
Lemma checkPattern_unfold koInstance item pattern name :
  checkPattern koInstance item pattern name
  = checkPattern_body koInstance (checkPattern koInstance) item pattern name.
Proof.
  unfold checkPattern at 1. simpl.
  apply checkPattern_body_ext. intros i sub nm Hsub.
  apply checkPattern_fuel_stable; lia.
Qed.

(** ** The entry point on the two forms of pattern *)

Lemma check_string koInstance item pattern name :
  check koInstance item (VString pattern) name
  = checkStringPattern koInstance item pattern (name_or_default name).
Proof. unfold check. now rewrite checkPattern_unfold. Qed.

Lemma check_object koInstance item pattern name :
  typeof pattern = "object" ->
  check koInstance item pattern name
  = checkObjectPattern koInstance (check koInstance) item pattern (name_or_default name).
Proof.
  intros H. unfold check. rewrite checkPattern_unfold at 1.
  unfold checkPattern_body. now rewrite H.
Qed.

Lemma member_object pattern key :
  typeof pattern = "object" -> pattern <> VNull ->
  member pattern key = Returns (property pattern key).
Proof. destruct pattern; simpl; congruence. Qed.

Lemma checkAllowedValues_existsb item values name :
  checkAllowedValues item values name
  = if existsb (strict_equals item) values then done
    else throwPatternError ("The value of " ++ name ++ " is not among the allowed ones!").
Proof.
  induction values as [|v values IH]; simpl; [reflexivity|].
  destruct (strict_equals item v); simpl; [reflexivity | exact IH].
Qed.

(** ** The claims *)



(** C5, as amended.  The [object] checker compares [typeof value] with
    ["object"]: every array passes, and so does a date; a function does not,
    its [typeof] is ["function"], and the checker raises
    ["<name> should have object type!"]. *)
Theorem C5_object_is_typeof koInstance name :
  (forall id elems,
      checkType koInstance (VArray id elems) (VString "object") name = Returns tt
      /\ check koInstance (VArray id elems) (VString "object") (Some name) = Some (Returns tt))
  /\ (forall id, checkType koInstance (VDate id) (VString "object") name = Returns tt)
  /\ (forall id,
        checkType koInstance (VFunction id) (VString "object") name
        = throwPatternError (name ++ " should have object type!")
        /\ check koInstance (VFunction id) (VString "object") (Some name)
           = Some (throwPatternError
                     (name_or_default (Some name) ++ " should have object type!"))).
Proof.
  repeat split; try reflexivity; rewrite check_string; reflexivity.
Qed.

(** C3, as amended.  A value that is neither absent nor [null], against an
    object pattern whose [__allowedValues] is truthy: when that is not an
    array, a configuration error; when it is, the check passes exactly when
    the value is [===] to one of its elements and raises
    ["The value of <name> is not among the allowed ones!"] otherwise.
    Nothing else of the pattern takes part: no type check, no descent. *)
Theorem C3_allowed_values koInstance item pattern name :
  typeof pattern = "object" -> pattern <> VNull ->
  strict_equals item VUndefined = false -> strict_equals item VNull = false ->
  truthy (property pattern "__allowedValues") = true ->
  check koInstance item pattern name
  = Some match property pattern "__allowedValues" with
         | VArray _ values =>
             if existsb (strict_equals item) values then Returns tt
             else throwPatternError ("The value of " ++ name_or_default name
                                     ++ " is not among the allowed ones!")
         | _ => throwConfigError
             "Invalid pattern: the __allowedValues property always has to be an array!"
         end.
Proof.
  intros Hobj Hnull Hu Hn Ht. rewrite check_object by assumption.
  unfold checkObjectPattern. rewrite Hu, Hn, member_object by assumption.
  simpl fbind. rewrite Ht.
  destruct (property pattern "__allowedValues"); try reflexivity.
  unfold lift. now rewrite checkAllowedValues_existsb.
Qed.

(** C10.  [extend] assigns [koInstance] in its last statement only: when it
    raises, whatever the exception, the handle is the one it found, and
    every later check does what it would have done before the call.  When
    it returns, the handle is an object that passed every test: it is
    truthy, its [typeof] is ["object"] and its [isObservable] is a
    function. *)
Theorem C10_extend_atomic koInstance config :
  (forall e,
      fst (extend config koInstance) = Throws e ->
      snd (extend config koInstance) = koInstance
      /\ forall item pattern name,
           check (snd (extend config koInstance)) item pattern name
           = check koInstance item pattern name)
  /\ (fst (extend config koInstance) = Returns tt ->
      truthy (snd (extend config koInstance)) = true
      /\ typeof (snd (extend config koInstance)) = "object"
      /\ exists isObservable,
           Get (snd (extend config koInstance)) "isObservable" = Returns isObservable
           /\ typeof isObservable = "function").
Proof.
  split.
  - intros e H.
    assert (Hsame : snd (extend config koInstance) = koInstance).
    { revert H. unfold extend, extendSuperSchema, sbind, pure, set_koInstance.
      destruct (negb (String.eqb (typeof config) "object")); simpl; [reflexivity|].
      destruct (Get config "knockout") as [knockout|]; simpl; [|reflexivity].
      destruct (if truthy knockout then _ else _) as [ko|]; simpl; [|reflexivity].
      destruct (negb (truthy ko)); simpl; [reflexivity|].
      destruct (negb (String.eqb (typeof ko) "object")); simpl; [reflexivity|].
      destruct (Get ko "isObservable") as [f|]; simpl; [|reflexivity].
      destruct (negb (String.eqb (typeof f) "function")); simpl; [reflexivity|].
      discriminate. }
    split; [exact Hsame | intros; now rewrite Hsame].
  - unfold extend, extendSuperSchema, sbind, pure, set_koInstance.
    destruct (negb (String.eqb (typeof config) "object")); simpl; [discriminate|].
    destruct (Get config "knockout") as [knockout|]; simpl; [|discriminate].
    destruct (if truthy knockout then _ else _) as [ko|]; simpl; [|discriminate].
    destruct (truthy ko) eqn:Et; simpl; [|discriminate].
    destruct (String.eqb (typeof ko) "object") eqn:Eo; simpl; [|discriminate].
    destruct (Get ko "isObservable") as [f|] eqn:Eg; simpl; [|discriminate].
    destruct (String.eqb (typeof f) "function") eqn:Ef; simpl; [|discriminate].
    intros _. apply String.eqb_eq in Eo, Ef. eauto.
Qed.

Lemma checkType_unknown koInstance item X name :
  slot_truthy (typeCheckers_get koInstance X) = false ->
  checkType koInstance item (VString X) name = throwConfigError ("Unknown type: " ++ X).
Proof. intros H. unfold checkType. simpl. now rewrite H. Qed.

(** C2, as amended.  Let [X] be a type name the registry lookup
    [typeCheckers[X]] finds nothing for: none of the eight registered names
    and not the name of a member the registry object inherits.  For every
    value other than [undefined] and [null], a string pattern whose type
    token (after any [optional] and [nullable]) is [X], and an object pattern
    without allowed values whose [__type] is [X], raise the configuration
    error ["Unknown type: X"]. *)
Theorem C2_unknown_type koInstance X :
  slot_truthy (typeCheckers_get koInstance X) = false ->
  (forall item pattern name,
      type_token pattern X ->
      strict_equals item VUndefined = false -> strict_equals item VNull = false ->
      check koInstance item (VString pattern) name
      = Some (throwConfigError ("Unknown type: " ++ X)))
  /\ (forall item pattern name,
        typeof pattern = "object" -> pattern <> VNull ->
        strict_equals item VUndefined = false -> strict_equals item VNull = false ->
        truthy (property pattern "__allowedValues") = false ->
        property pattern "__type" = VString X -> truthy (VString X) = true ->
        check koInstance item pattern name
        = Some (throwConfigError ("Unknown type: " ++ X))).
Proof.
  intros HX. split.
  - intros item pattern name Htok Hu Hn. rewrite check_string.
    induction Htok as [pattern H1 H2 | pattern X H1 _ IH | pattern X H1 _ IH];
      rewrite checkStringPattern_unfold; unfold checkStringPattern_body.
    + rewrite H1, H2, Hu, Hn, checkType_unknown by assumption. reflexivity.
    + rewrite H1, Hu. now apply IH.
    + destruct (String.eqb (currentType_of pattern) nonRequiredName);
        [rewrite Hu | rewrite H1, Hn]; now apply IH.
  - intros item pattern name Hobj Hnull Hu Hn Ha Ht HtX.
    rewrite check_object by assumption. unfold checkObjectPattern.
    rewrite Hu, Hn, !member_object by assumption. simpl fbind.
    rewrite Ha. simpl fbind. rewrite Ht, HtX, checkType_unknown by assumption.
    reflexivity.
Qed.

(** The loop stops at the first element whose check raises, with that
    element's exception. *)
Lemma forEach_from_throws (f : value -> nat -> fueled unit) (l : list value) err :
  forall index,
    forEach_from index l f = Some (Throws err) <->
    exists i element,
      nth_error l i = Some element
      /\ f element (index + i) = Some (Throws err)
      /\ forall j earlier, j < i -> nth_error l j = Some earlier ->
                           f earlier (index + j) = Some (Returns tt).
Proof.
  induction l as [|x l IH]; intros index; simpl.
  - split; [discriminate|]. intros (i & element & H & _). now destruct i.
  - destruct (f x index) as [[[]|e]|] eqn:E; simpl.
    + rewrite IH. split.
      * intros (i & element & Hi & Hf & Hbefore). exists (S i), element.
        rewrite Nat.add_succ_r. repeat split; auto.
        intros [|j] earlier Hj Hnth; simpl in Hnth.
        -- injection Hnth as <-. now rewrite Nat.add_0_r.
        -- rewrite Nat.add_succ_r. apply Hbefore; [lia | assumption].
      * intros (i & element & Hi & Hf & Hbefore). destruct i as [|i].
        -- injection Hi as <-. rewrite Nat.add_0_r in Hf. congruence.
        -- exists i, element. rewrite Nat.add_succ_r in Hf. repeat split; auto.
           intros j earlier Hj Hnth.
           specialize (Hbefore (S j) earlier). rewrite Nat.add_succ_r in Hbefore.
           apply Hbefore; [lia | assumption].
    + split.
      * intros H. injection H as <-. exists 0, x. rewrite Nat.add_0_r.
        repeat split; auto. intros j earlier Hj. lia.
      * intros (i & element & Hi & Hf & Hbefore). destruct i as [|i].
        -- injection Hi as <-. rewrite Nat.add_0_r in Hf. congruence.
        -- specialize (Hbefore 0 x). rewrite Nat.add_0_r in Hbefore.
           rewrite Hbefore in E; [discriminate | lia | reflexivity].
    + split; [discriminate|].
      intros (i & element & Hi & Hf & Hbefore). destruct i as [|i].
      * injection Hi as <-. rewrite Nat.add_0_r in Hf. congruence.
      * specialize (Hbefore 0 x). rewrite Nat.add_0_r in Hbefore.
        rewrite Hbefore in E; [discriminate | lia | reflexivity].
Qed.

Lemma remainingPattern_array (sub : string) :
  currentType_of ("array " ++ sub) = "array"
  /\ remainingPattern_of ("array " ++ sub) = sub.
Proof.
  unfold currentType_of, remainingPattern_of, slice1. simpl. split; [reflexivity|].
  apply (join_split " ").
Qed.


Lemma walk_name (keys : list string) :
  forall current name leaf path,
    walk keys current name = Returns (leaf, path) ->
    path = fold_left (fun n key => n ++ "." ++ key) keys name.
Proof.
  induction keys as [|key keys IH]; intros current name leaf path; simpl.
  - intros H. now injection H.
  - destruct (negb _); [discriminate|].
    destruct (Get current key) as [next|]; simpl; [apply IH | discriminate].
Qed.

Lemma Get_throws v key e : Get v key = Throws e -> e = TypeError.
Proof. unfold Get. destruct (prototype_of v); [discriminate | congruence]. Qed.

(** When the walk raises the program's error, the name in the message is
    the path of the segments walked so far. *)
Lemma walk_throws (keys : list string) :
  forall current name e,
    walk keys current name = Throws e ->
    e = TypeError
    \/ exists walked rest,
         keys = (walked ++ rest)%list /\ rest <> []
         /\ e = BackendError
                 (fold_left (fun n key => n ++ "." ++ key) walked name
                  ++ " should have object type!")
                 "INVALID_INPUT_PATTERN" 400.
Proof.
  induction keys as [|key keys IH]; intros current name e; simpl; [discriminate|].
  destruct (negb _).
  - intros H. injection H as <-. right. exists [], (key :: keys).
    repeat split. discriminate.
  - destruct (Get current key) as [next|e'] eqn:E; simpl.
    + intros [->|(walked & rest & -> & Hrest & ->)]%IH; [now left | right].
      exists (key :: walked), rest. repeat split. assumption.
    + intros H. injection H as <-. left. eapply Get_throws; eassumption.
Qed.


Lemma checkType_object koInstance item name :
  typeof item = "object" ->
  checkType koInstance item (VString "object") name = Returns tt.
Proof.
  intros H. unfold checkType. simpl. unfold createSimpleTypeChecker. now rewrite H.
Qed.

Lemma checkProperties_fields koInstance props item pattern name :
  typeof pattern = "object" -> pattern <> VNull ->
  checkProperties (check koInstance) props item pattern name
  = check_fields koInstance (filter (fun prop => negb (skipped_key prop)) props)
      item pattern name.
Proof.
  intros Hobj Hnull. induction props as [|prop props IH]; simpl; [reflexivity|].
  fold (skipped_key prop). destruct (skipped_key prop); simpl; [exact IH|].
  rewrite member_object by assumption. simpl. now rewrite IH.
Qed.

(** C4, as amended.  An object pattern of type [object], spelled out or by
    default, on a value whose [typeof] is ["object"]: every key of the
    pattern other than [__type], [__required] and [__nullable] is walked as
    a dotted path, in the order of the keys and up to the first error.
    Those three keys are the only ones left out. *)
Theorem C4_field_paths koInstance item pattern name :
  typeof pattern = "object" -> pattern <> VNull ->
  typeof item = "object" -> item <> VNull ->
  truthy (property pattern "__allowedValues") = false ->
  (if truthy (property pattern "__type") then property pattern "__type"
   else VString "object") = VString "object" ->
  check koInstance item pattern name
  = check_fields koInstance
      (filter (fun prop => negb (skipped_key prop)) (keys pattern))
      item pattern (name_or_default name).
Proof.
  intros Hobj Hnull Hitem Hinull Ha Ht.
  rewrite check_object by assumption. unfold checkObjectPattern.
  assert (strict_equals item VUndefined = false) as -> by (destruct item; auto; discriminate).
  assert (strict_equals item VNull = false) as -> by (destruct item; auto; congruence).
  rewrite !member_object by assumption. simpl fbind. rewrite Ha. simpl fbind.
  rewrite Ht, checkType_object by assumption. simpl.
  now apply checkProperties_fields.
Qed.

(** ** The exceptions that can leave a check *)

Lemma expected_config {A} message : expected (@throwConfigError A message).
Proof. left. now exists message. Qed.

Lemma expected_pattern {A} message : expected (@throwPatternError A message).
Proof. right; left. now exists message. Qed.

Lemma expected_TypeError {A} : expected (@Throws A TypeError).
Proof. right; right; left. reflexivity. Qed.

Lemma expected_Returns {A} (a : A) : expected (Returns a).
Proof. exact I. Qed.

Lemma expected_bind {A B} (c : completion A) (k : A -> completion B) :
  expected c -> (forall a, expected (k a)) -> expected (bind c k).
Proof. destruct c; simpl; auto. Qed.

Lemma fexpected_fbind {A B} (c : fueled A) (k : A -> fueled B) :
  fexpected c -> (forall a, fexpected (k a)) -> fexpected (fbind c k).
Proof. destruct c as [[a|e]|]; simpl; auto. Qed.

Lemma fexpected_lift {A} (c : completion A) : expected c -> fexpected (lift c).
Proof. auto. Qed.

Lemma expected_invoke f this args : expected (invoke f this args).
Proof.
  destruct (invoke f this args) as [v|e] eqn:E; simpl; [exact I|].
  right; right; right. now exists f, this, args.
Qed.

Lemma expected_call f this args : expected (call f this args).
Proof. destruct f; try apply @expected_TypeError. apply expected_invoke. Qed.

Lemma expected_Get v key : expected (Get v key).
Proof. unfold Get. destruct (prototype_of v); [exact I | apply @expected_TypeError]. Qed.

Lemma expected_member pattern key : expected (member pattern key).
Proof. destruct pattern; try exact I; apply @expected_TypeError. Qed.

Lemma expected_try_method o method : expected (try_method o method).
Proof.
  unfold try_method. apply expected_bind; [apply expected_Get|].
  intros f; destruct f; try exact I.
  apply expected_bind; [apply expected_invoke | intros r; exact I].
Qed.

Lemma expected_OrdinaryToPrimitive o first second :
  expected (OrdinaryToPrimitive o first second).
Proof.
  unfold OrdinaryToPrimitive. apply expected_bind; [apply expected_try_method|].
  intros [p|]; [exact I|]. apply expected_bind; [apply expected_try_method|].
  intros [p|]; [exact I | apply @expected_TypeError].
Qed.

Lemma expected_ToPropertyKey v : expected (ToPropertyKey v).
Proof.
  unfold ToPropertyKey. destruct (is_primitive v); [exact I|].
  apply expected_bind; [apply expected_OrdinaryToPrimitive | intros p; exact I].
Qed.

Lemma expected_append_value s v : expected (append_value s v).
Proof.
  unfold append_value. destruct (is_primitive v); [exact I|].
  apply expected_bind; [|intros p; exact I].
  destruct (instanceof_Date v); apply expected_OrdinaryToPrimitive.
Qed.

Lemma expected_createSimpleTypeChecker type v name :
  expected (createSimpleTypeChecker type v name).
Proof.
  unfold createSimpleTypeChecker.
  destruct (negb _); [apply @expected_pattern | exact I].
Qed.

Lemma expected_checkObservable koInstance v name :
  expected (checkObservable koInstance v name).
Proof.
  unfold checkObservable. destruct (negb (truthy koInstance)); [apply @expected_config|].
  apply expected_bind; [apply expected_Get | intros f].
  apply expected_bind; [apply expected_call | intros r].
  destruct (negb (truthy r)); [apply @expected_pattern | exact I].
Qed.

Lemma assoc_In {A} (key : string) (l : list (string * A)) (a : A) :
  assoc key l = Some a -> In (key, a) l.
Proof.
  induction l as [|[k x] l IH]; simpl; [discriminate|].
  destruct (String.eqb_spec k key) as [->|_]; intros H.
  - injection H as ->. now left.
  - right. now apply IH.
Qed.

Lemma expected_typeCheckers koInstance key f :
  assoc key (typeCheckers koInstance) = Some f -> forall v name, expected (f v name).
Proof.
  intros H%assoc_In v name. unfold typeCheckers in H. simpl in H.
  repeat (destruct H as [H|H];
          [injection H as _ <-;
           first [ apply expected_createSimpleTypeChecker
                 | apply expected_checkObservable
                 | unfold checkArray, checkDate;
                   destruct (negb _); [apply @expected_pattern | exact I] ] |]).
  contradiction.
Qed.

Lemma expected_checkType koInstance v type name :
  expected (checkType koInstance v type name).
Proof.
  unfold checkType. apply expected_bind; [apply expected_ToPropertyKey | intros key].
  destruct (negb _).
  - apply expected_bind; [apply expected_append_value | intros m; apply @expected_config].
  - unfold typeCheckers_get.
    destruct (assoc key (typeCheckers koInstance)) as [f|] eqn:E.
    + eapply expected_typeCheckers; eassumption.
    + apply expected_bind; [apply expected_call | intros r; exact I].
Qed.

Lemma expected_checkAllowedValues item values name :
  expected (checkAllowedValues item values name).
Proof.
  rewrite checkAllowedValues_existsb.
  destruct (existsb _ _); [exact I | apply @expected_pattern].
Qed.

Lemma expected_walk keys : forall current name, expected (walk keys current name).
Proof.
  induction keys as [|key keys IH]; intros current name; simpl; [exact I|].
  destruct (negb _); [apply @expected_pattern|].
  apply expected_bind; [apply expected_Get | intros next; apply IH].
Qed.

Lemma fexpected_forEach array (f : value -> nat -> fueled unit) :
  (forall e i, fexpected (f e i)) -> fexpected (forEach array f).
Proof.
  intros H. destruct array; try apply @expected_TypeError.
  unfold forEach. generalize 0.
  induction elems as [|x l IH]; intros index; simpl; [exact I|].
  apply fexpected_fbind; [apply H | intros _; apply IH].
Qed.

Lemma fexpected_checkStringPattern_fuel koInstance n :
  forall item pattern name,
    fexpected (checkStringPattern_fuel koInstance n item pattern name).
Proof.
  induction n as [|n IH]; intros item pattern name; simpl; [exact I|].
  unfold checkStringPattern_body.
  destruct (String.eqb _ nonRequiredName).
  { destruct (strict_equals item VUndefined); [exact I | apply IH]. }
  destruct (String.eqb _ nullableName).
  { destruct (strict_equals item VNull); [exact I | apply IH]. }
  destruct (strict_equals item VUndefined); [apply @expected_pattern|].
  destruct (strict_equals item VNull); [apply @expected_pattern|].
  apply fexpected_fbind; [apply expected_checkType | intros _].
  destruct (truthy _); [|exact I].
  destruct (String.eqb _ "array"); [apply fexpected_forEach; intros; apply IH|].
  destruct (String.eqb _ "observable"); [|apply @expected_config].
  apply fexpected_fbind; [apply expected_call | intros; apply IH].
Qed.

Section Expected.

Variable koInstance : value.
Variable rec : value -> value -> option string -> fueled unit.
Hypothesis rec_expected : forall item pattern name, fexpected (rec item pattern name).

Lemma fexpected_checkProperties props item pattern name :
  fexpected (checkProperties rec props item pattern name).
Proof.
  induction props as [|prop props IH]; simpl; [exact I|].
  destruct (_ || _); [exact IH|].
  pose proof (expected_member pattern prop) as Hm.
  destruct (member pattern prop) as [sub|e]; [|exact Hm].
  apply fexpected_fbind; [|intros _; exact IH].
  unfold checkShorthandPattern.
  apply fexpected_fbind; [apply expected_walk | intros leaf; apply rec_expected].
Qed.

Lemma fexpected_checkObjectPattern item pattern name :
  fexpected (checkObjectPattern koInstance rec item pattern name).
Proof.
  unfold checkObjectPattern.
  destruct (strict_equals item VUndefined).
  { apply fexpected_fbind; [apply expected_member | intros r].
    destruct (negb _); [apply @expected_pattern | exact I]. }
  destruct (strict_equals item VNull).
  { apply fexpected_fbind; [apply expected_member | intros r].
    destruct (negb _); [apply @expected_pattern | exact I]. }
  apply fexpected_fbind; [apply expected_member | intros allowedValues].
  destruct (truthy allowedValues).
  { destruct allowedValues; try apply @expected_config.
    apply expected_checkAllowedValues. }
  apply fexpected_fbind; [apply expected_member | intros type].
  apply fexpected_fbind; [apply expected_checkType | intros _].
  destruct (strict_equals _ (VString "array")).
  { apply fexpected_fbind; [apply expected_member | intros elements].
    destruct (negb _); [|exact I]. apply fexpected_forEach; auto. }
  destruct (strict_equals _ (VString "object")); [apply fexpected_checkProperties|].
  destruct (strict_equals _ (VString "observable")); [|exact I].
  apply fexpected_fbind; [apply expected_member | intros value].
  destruct (truthy value); [|exact I].
  apply fexpected_fbind; [apply expected_call | auto].
Qed.

End Expected.

Lemma fexpected_checkPattern_fuel koInstance n :
  forall item pattern name, fexpected (checkPattern_fuel koInstance n item pattern name).
Proof.
  induction n as [|n IH]; intros item pattern name; simpl; [exact I|].
  unfold checkPattern_body.
  destruct (String.eqb (typeof pattern) "object");
    [now apply fexpected_checkObjectPattern|].
  destruct (String.eqb (typeof pattern) "string");
    [apply fexpected_checkStringPattern_fuel|].
  apply fexpected_fbind; [apply expected_append_value | intros m; apply @expected_config].
Qed.


(** ** Further properties of the code *)

(** *** Tokens *)

Lemma split_token (sep : ascii) (token rest : string) :
  no_sep sep token = true ->
  split sep (token ++ String sep rest) = token :: split sep rest.
Proof.
  induction token as [|c token IH]; simpl.
  - intros _. now rewrite Ascii.eqb_refl.
  - intros [Hc Htoken]%andb_prop. apply negb_true_iff in Hc.
    now rewrite Hc, IH.
Qed.

Lemma split_single (sep : ascii) (token : string) :
  no_sep sep token = true -> split sep token = [token].
Proof.
  induction token as [|c token IH]; simpl; [reflexivity|].
  intros [Hc Htoken]%andb_prop. apply negb_true_iff in Hc.
  now rewrite Hc, IH.
Qed.

(** X1.  The first token of a string pattern is what stands before its
    first space and the remaining pattern is everything after that space,
    further spaces included; a pattern without a space is its own first
    token and leaves nothing. *)
Theorem tokens_of_pattern (token rest : string) :
  no_sep " " token = true ->
  currentType_of (token ++ " " ++ rest) = token
  /\ remainingPattern_of (token ++ " " ++ rest) = rest
  /\ currentType_of token = token
  /\ remainingPattern_of token = "".
Proof.
  intros H. unfold currentType_of, remainingPattern_of, slice1.
  change (token ++ " " ++ rest) with (token ++ String " " rest).
  rewrite (split_token " " token rest), (split_single " " token) by assumption.
  simpl. repeat split. apply (join_split " ").
Qed.

Lemma checkStringPattern_optional koInstance item rest name :
  checkStringPattern koInstance item ("optional " ++ rest) name
  = if strict_equals item VUndefined then Some (Returns tt)
    else checkStringPattern koInstance item rest name.
Proof.
  destruct (tokens_of_pattern "optional" rest eq_refl) as (Hcur & Hrem & _).
  rewrite checkStringPattern_unfold at 1. unfold checkStringPattern_body.
  change ("optional " ++ rest) with ("optional" ++ " " ++ rest).
  now rewrite Hcur, Hrem.
Qed.

Lemma checkStringPattern_nullable koInstance item rest name :
  checkStringPattern koInstance item ("nullable " ++ rest) name
  = if strict_equals item VNull then Some (Returns tt)
    else checkStringPattern koInstance item rest name.
Proof.
  destruct (tokens_of_pattern "nullable" rest eq_refl) as (Hcur & Hrem & _).
  rewrite checkStringPattern_unfold at 1. unfold checkStringPattern_body.
  change ("nullable " ++ rest) with ("nullable" ++ " " ++ rest).
  now rewrite Hcur, Hrem.
Qed.

(** X2.  The order of the two modifiers does not matter, and a repeated
    modifier counts once. *)
Theorem modifiers_commute koInstance item rest name :
  check koInstance item (VString ("optional nullable " ++ rest)) name
  = check koInstance item (VString ("nullable optional " ++ rest)) name
  /\ check koInstance item (VString ("optional optional " ++ rest)) name
     = check koInstance item (VString ("optional " ++ rest)) name
  /\ check koInstance item (VString ("nullable nullable " ++ rest)) name
     = check koInstance item (VString ("nullable " ++ rest)) name.
Proof.
  rewrite !check_string.
  change ("optional nullable " ++ rest) with ("optional " ++ ("nullable " ++ rest)).
  change ("nullable optional " ++ rest) with ("nullable " ++ ("optional " ++ rest)).
  change ("optional optional " ++ rest) with ("optional " ++ ("optional " ++ rest)).
  change ("nullable nullable " ++ rest) with ("nullable " ++ ("nullable " ++ rest)).
  rewrite !checkStringPattern_optional, !checkStringPattern_nullable,
    !checkStringPattern_optional.
  repeat split; destruct item; reflexivity.
Qed.

Lemma absent_value_fuel koInstance name n :
  forall pattern,
    String.length pattern < n ->
    ~ has_modifier nonRequiredName pattern ->
    checkStringPattern koInstance VUndefined pattern name
    = Some (throwPatternError (name ++ " is mandatory!")).
Proof.
  induction n as [|n IH]; intros pattern Hn Hno; [lia|].
  rewrite checkStringPattern_unfold. unfold checkStringPattern_body.
  destruct (String.eqb_spec (currentType_of pattern) nonRequiredName) as [E1|E1].
  { exfalso. apply Hno. now apply has_modifier_here. }
  destruct (String.eqb_spec (currentType_of pattern) nullableName) as [E2|E2];
    [|reflexivity].
  simpl strict_equals. cbv iota.
  assert (Hcur : currentType_of pattern <> "") by (rewrite E2; discriminate).
  pose proof (remainingPattern_shorter pattern Hcur).
  apply IH; [lia|]. intros Hrest. apply Hno. apply has_modifier_later; auto.
Qed.

Lemma null_value_fuel koInstance name n :
  forall pattern,
    String.length pattern < n ->
    ~ has_modifier nullableName pattern ->
    checkStringPattern koInstance VNull pattern name
    = Some (throwPatternError (name ++ " shouldn't be null!")).
Proof.
  induction n as [|n IH]; intros pattern Hn Hno; [lia|].
  rewrite checkStringPattern_unfold. unfold checkStringPattern_body.
  destruct (String.eqb_spec (currentType_of pattern) nonRequiredName) as [E1|E1].
  { simpl strict_equals. cbv iota.
    assert (Hcur : currentType_of pattern <> "") by (rewrite E1; discriminate).
    pose proof (remainingPattern_shorter pattern Hcur).
    apply IH; [lia|]. intros Hrest. apply Hno. apply has_modifier_later; auto. }
  destruct (String.eqb_spec (currentType_of pattern) nullableName) as [E2|E2];
    [|reflexivity].
  exfalso. apply Hno. now apply has_modifier_here.
Qed.

(** X3.  What a string pattern does with an absent value and with [null]
    depends on its leading modifiers alone, not on the type name, which is
    not even looked up: [undefined] passes when [optional] is among them
    and raises ["<name> is mandatory!"] when it is not; [null] passes when
    [nullable] is among them and raises ["<name> shouldn't be null!"] when
    it is not. *)
Theorem absent_and_null_by_modifiers koInstance pattern name :
  (has_modifier nonRequiredName pattern ->
   check koInstance VUndefined (VString pattern) name = Some (Returns tt))
  /\ (~ has_modifier nonRequiredName pattern ->
      check koInstance VUndefined (VString pattern) name
      = Some (throwPatternError (name_or_default name ++ " is mandatory!")))
  /\ (has_modifier nullableName pattern ->
      check koInstance VNull (VString pattern) name = Some (Returns tt))
  /\ (~ has_modifier nullableName pattern ->
      check koInstance VNull (VString pattern) name
      = Some (throwPatternError (name_or_default name ++ " shouldn't be null!"))).
Proof.
  rewrite !check_string. repeat split.
  - induction 1 as [pattern H | pattern [H|H] _ IH];
      rewrite checkStringPattern_unfold; unfold checkStringPattern_body;
      rewrite H; simpl; auto.
  - intros H. eapply absent_value_fuel; [apply Nat.lt_succ_diag_r | exact H].
  - induction 1 as [pattern H | pattern [H|H] _ IH];
      rewrite checkStringPattern_unfold; unfold checkStringPattern_body;
      rewrite H; simpl; auto.
  - intros H. eapply null_value_fuel; [apply Nat.lt_succ_diag_r | exact H].
Qed.

(** *** The dispatcher *)

(** X4.  A pattern that is neither an object nor a string, here any other
    primitive, is a configuration error that prints the pattern, whatever
    the value is, [undefined] and [null] included. *)
Theorem invalid_pattern_kind koInstance item pattern name :
  is_primitive pattern = true ->
  typeof pattern <> "object" -> typeof pattern <> "string" ->
  check koInstance item pattern name
  = Some (throwConfigError ("Invalid pattern: " ++ string_of_primitive pattern)).
Proof.
  intros Hprim Hobj%String.eqb_neq Hstr%String.eqb_neq.
  unfold check. rewrite checkPattern_unfold. unfold checkPattern_body.
  rewrite Hobj, Hstr. unfold append_value. now rewrite Hprim.
Qed.

(** The display name: a call without a name and a call with the empty
    string as name both report under ["configObject"]. *)
Lemma default_display_name koInstance item pattern :
  check koInstance item pattern None
  = check koInstance item pattern (Some defaultName)
  /\ check koInstance item pattern (Some "")
     = check koInstance item pattern (Some defaultName).
Proof.
  unfold check. rewrite !(checkPattern_unfold koInstance item pattern).
  split; reflexivity.
Qed.

(** *** The type checkers *)

Lemma checkStringPattern_type koInstance item type name :
  no_sep " " type = true ->
  String.eqb type nonRequiredName = false -> String.eqb type nullableName = false ->
  strict_equals item VUndefined = false -> strict_equals item VNull = false ->
  checkStringPattern koInstance item type name
  = Some (checkType koInstance item (VString type) name).
Proof.
  intros Htoken H1 H2 Hu Hn.
  destruct (tokens_of_pattern type "" Htoken) as (_ & _ & Hcur & Hrem).
  rewrite checkStringPattern_unfold. unfold checkStringPattern_body.
  rewrite Hcur, Hrem, H1, H2, Hu, Hn.
  destruct (checkType koInstance item (VString type) name) as [[]|]; reflexivity.
Qed.

(** X6.  Against one of the five names [boolean], [function], [number],
    [object], [string], a value that is there and not [null] passes exactly
    when its [typeof] is that name, and raises
    ["<name> should have <type> type!"] otherwise. *)
Theorem simple_type_is_typeof koInstance item type name :
  In type ["boolean"; "function"; "number"; "object"; "string"] ->
  strict_equals item VUndefined = false -> strict_equals item VNull = false ->
  check koInstance item (VString type) name
  = Some (if String.eqb (typeof item) type then Returns tt
          else throwPatternError
                 (name_or_default name ++ " should have " ++ type ++ " type!")).
Proof.
  intros Hin Hu Hn. rewrite check_string.
  simpl in Hin.
  repeat (destruct Hin as [<-|Hin];
          [rewrite checkStringPattern_type by (assumption || reflexivity);
           unfold checkType; simpl; unfold createSimpleTypeChecker;
           destruct (String.eqb (typeof item) _); reflexivity|]).
  contradiction.
Qed.

(** X7.  Against [array] a value that is there and not [null] passes
    exactly when it is an array, and raises ["<name> has to be an array!"]
    otherwise; against [date] it passes exactly when it is a date, and
    raises ["<name> has to be a date object!"] otherwise. *)
Theorem array_and_date koInstance item name :
  strict_equals item VUndefined = false -> strict_equals item VNull = false ->
  check koInstance item (VString "array") name
  = Some (if isArray item then Returns tt
          else throwPatternError (name_or_default name ++ " has to be an array!"))
  /\ check koInstance item (VString "date") name
     = Some (if instanceof_Date item then Returns tt
             else throwPatternError (name_or_default name ++ " has to be a date object!")).
Proof.
  intros Hu Hn. rewrite !check_string.
  rewrite !checkStringPattern_type by (assumption || reflexivity).
  unfold checkType. simpl. unfold checkArray, checkDate.
  split; [destruct (isArray item) | destruct (instanceof_Date item)]; reflexivity.
Qed.

(** *** Arrays *)

Lemma forEach_from_returns (f : value -> nat -> fueled unit) (l : list value) :
  forall index,
    forEach_from index l f = Some (Returns tt) <->
    forall i element, nth_error l i = Some element ->
                      f element (index + i) = Some (Returns tt).
Proof.
  induction l as [|x l IH]; intros index; simpl.
  - split; [|reflexivity]. intros _ [|i] element; discriminate.
  - split.
    + intros H i element Hi.
      destruct (f x index) as [[[]|e]|] eqn:E; simpl in H; try discriminate.
      destruct i as [|i]; simpl in Hi.
      * injection Hi as <-. now rewrite Nat.add_0_r.
      * rewrite Nat.add_succ_r. now apply (proj1 (IH (S index)) H).
    + intros H. pose proof (H 0 x eq_refl) as H0. rewrite Nat.add_0_r in H0.
      rewrite H0. simpl. apply IH. intros i element Hi.
      specialize (H (S i) element Hi). now rewrite Nat.add_succ_r in H.
Qed.

Lemma checkStringPattern_array koInstance id elems sub name :
  sub <> "" ->
  checkStringPattern koInstance (VArray id elems) ("array " ++ sub) name
  = forEach_from 0 elems (fun element index =>
      checkStringPattern koInstance element sub
        (name ++ "[" ++ string_of_nat index ++ "]")).
Proof.
  intros Hsub%String.eqb_neq.
  destruct (tokens_of_pattern "array" sub eq_refl) as (Hcur & Hrem & _).
  rewrite checkStringPattern_unfold at 1. unfold checkStringPattern_body.
  change ("array " ++ sub) with ("array" ++ " " ++ sub).
  rewrite Hcur, Hrem. simpl. now rewrite Hsub.
Qed.

(** X8.  An array passes the string pattern ["array <sub>"] exactly when
    each of its elements passes [<sub>] under the name
    ["<name>[<index>]"].  So the empty array passes whatever stands after
    [array]: the sub-pattern is never looked at, be it an unknown type. *)
Theorem array_passes_by_elements koInstance id elems sub name :
  sub <> "" ->
  (check koInstance (VArray id elems) (VString ("array " ++ sub)) name = Some (Returns tt)
   <-> forall i element,
         nth_error elems i = Some element ->
         checkStringPattern koInstance element sub
           (name_or_default name ++ "[" ++ string_of_nat i ++ "]")
         = Some (Returns tt))
  /\ check koInstance (VArray id []) (VString ("array " ++ sub)) name = Some (Returns tt).
Proof.
  intros Hsub. rewrite !check_string, !checkStringPattern_array by assumption.
  split; [|reflexivity]. apply forEach_from_returns.
Qed.

Lemma strict_equals_undefined_true (v : value) :
  strict_equals v VUndefined = true <-> v = VUndefined.
Proof. destruct v; simpl; split; congruence. Qed.

(** X9.  An object pattern of type [array]: a value that is no array
    raises ["<name> has to be an array!"]; an array passes exactly when the
    pattern has no [__elements] or each element passes [__elements] under
    the name ["<name>[<index>]"]. *)
Theorem array_pattern_elements koInstance item pattern name :
  typeof pattern = "object" -> pattern <> VNull ->
  strict_equals item VUndefined = false -> strict_equals item VNull = false ->
  truthy (property pattern "__allowedValues") = false ->
  property pattern "__type" = VString "array" ->
  match item with
  | VArray _ elems =>
      check koInstance item pattern name = Some (Returns tt)
      <-> (property pattern "__elements" = VUndefined
           \/ forall i element,
                nth_error elems i = Some element ->
                check koInstance element (property pattern "__elements")
                  (Some (name_or_default name ++ "[" ++ string_of_nat i ++ "]"))
                = Some (Returns tt))
  | _ =>
      check koInstance item pattern name
      = Some (throwPatternError (name_or_default name ++ " has to be an array!"))
  end.
Proof.
  intros Hobj Hnull Hu Hn Ha Ht.
  rewrite check_object by assumption. unfold checkObjectPattern.
  rewrite Hu, Hn, !member_object by assumption. simpl fbind.
  rewrite Ha. simpl fbind. rewrite Ht.
  destruct item; try discriminate; try reflexivity.
  simpl. destruct (strict_equals (property pattern "__elements") VUndefined) eqn:E; simpl.
  - apply strict_equals_undefined_true in E. tauto.
  - rewrite forEach_from_returns. split; [auto|].
    intros [H|H]; [|exact H].
    apply strict_equals_undefined_true in H. congruence.
Qed.

(** *** Observables *)

(** X10.  While no library is registered, a check that comes to the type
    [observable] with a value that is there and not [null] raises the
    configuration error of the missing library, whatever the value is: for
    a string pattern whose type token is [observable] and for an object
    pattern whose [__type] is. *)
Theorem observable_without_library koInstance :
  truthy koInstance = false ->
  (forall item pattern name,
      type_token pattern "observable" ->
      strict_equals item VUndefined = false -> strict_equals item VNull = false ->
      check koInstance item (VString pattern) name
      = Some (throwConfigError
          "Observable checking is not possible because no knockout instance is given!"))
  /\ (forall item pattern name,
        typeof pattern = "object" -> pattern <> VNull ->
        strict_equals item VUndefined = false -> strict_equals item VNull = false ->
        truthy (property pattern "__allowedValues") = false ->
        property pattern "__type" = VString "observable" ->
        check koInstance item pattern name
        = Some (throwConfigError
            "Observable checking is not possible because no knockout instance is given!")).
Proof.
  intros Hko.
  assert (Htype : forall item name,
             checkType koInstance item (VString "observable") name
             = throwConfigError
                 "Observable checking is not possible because no knockout instance is given!").
  { intros item name. unfold checkType. simpl. unfold checkObservable. now rewrite Hko. }
  split.
  - intros item pattern name Htok Hu Hn. rewrite check_string.
    assert (Hgen : forall X, type_token pattern X -> X = "observable" ->
               checkStringPattern koInstance item pattern (name_or_default name)
               = Some (throwConfigError
                   "Observable checking is not possible because no knockout instance is given!")).
    { clear Htok. intros X Htok.
      induction Htok as [pattern H1 H2 | pattern X H1 _ IH | pattern X H1 _ IH];
        intros HX; rewrite checkStringPattern_unfold; unfold checkStringPattern_body.
      + rewrite H1, H2, Hu, Hn, HX, Htype. reflexivity.
      + rewrite H1, Hu. now apply IH.
      + destruct (String.eqb (currentType_of pattern) nonRequiredName);
          [rewrite Hu | rewrite H1, Hn]; now apply IH. }
    now apply (Hgen "observable").
  - intros item pattern name Hobj Hnull Hu Hn Ha Ht.
    rewrite check_object by assumption. unfold checkObjectPattern.
    rewrite Hu, Hn, !member_object by assumption. simpl fbind.
    rewrite Ha. simpl fbind. rewrite Ht. simpl (if truthy _ then _ else _).
    now rewrite Htype.
Qed.

Lemma checkObjectPattern_typed koInstance item pattern name type :
  typeof pattern = "object" -> pattern <> VNull ->
  strict_equals item VUndefined = false -> strict_equals item VNull = false ->
  truthy (property pattern "__allowedValues") = false ->
  property pattern "__type" = VString type -> truthy (VString type) = true ->
  check koInstance item pattern name
  = (lift (checkType koInstance item (VString type) (name_or_default name)) ;;;
     if String.eqb type "array" then
       if negb (strict_equals (property pattern "__elements") VUndefined) then
         forEach item (fun element index =>
           check koInstance element (property pattern "__elements")
             (Some (name_or_default name ++ "[" ++ string_of_nat index ++ "]")))
       else Some (Returns tt)
     else if String.eqb type "object" then
       checkProperties (check koInstance) (keys pattern) item pattern (name_or_default name)
     else if String.eqb type "observable" then
       if truthy (property pattern "__value") then
         contents <~ lift (call item VUndefined []) ;;
         check koInstance contents (property pattern "__value")
           (Some (name_or_default name ++ "()"))
       else Some (Returns tt)
     else Some (Returns tt)).
Proof.
  intros Hobj Hnull Hu Hn Ha Ht Htruthy.
  rewrite check_object by assumption. unfold checkObjectPattern.
  rewrite Hu, Hn, !member_object by assumption. simpl fbind.
  rewrite Ha. simpl fbind. rewrite Ht, Htruthy. reflexivity.
Qed.

(** X11.  An object pattern of type [observable], on a value the library
    takes for an observable: without a truthy [__value] the check is over;
    with one, the value is called without arguments and what it returns is
    checked against [__value] under the name ["<name>()"]. *)
Theorem observable_pattern_value koInstance item pattern name :
  typeof pattern = "object" -> pattern <> VNull ->
  strict_equals item VUndefined = false -> strict_equals item VNull = false ->
  truthy (property pattern "__allowedValues") = false ->
  property pattern "__type" = VString "observable" ->
  checkType koInstance item (VString "observable") (name_or_default name) = Returns tt ->
  check koInstance item pattern name
  = if truthy (property pattern "__value") then
      match call item VUndefined [] with
      | Returns contents =>
          check koInstance contents (property pattern "__value")
            (Some (name_or_default name ++ "()"))
      | Throws e => Some (Throws e)
      end
    else Some (Returns tt).
Proof.
  intros Hobj Hnull Hu Hn Ha Ht Hcheck.
  rewrite (checkObjectPattern_typed koInstance item pattern name "observable")
    by (assumption || reflexivity).
  rewrite Hcheck. reflexivity.
Qed.

(** X12.  An object pattern whose [__type] is a name other than [array],
    [object] and [observable] is a leaf: the check is the type check of
    that name, and no other key of the pattern is looked at. *)
Theorem leaf_type_pattern koInstance item pattern name type :
  typeof pattern = "object" -> pattern <> VNull ->
  strict_equals item VUndefined = false -> strict_equals item VNull = false ->
  truthy (property pattern "__allowedValues") = false ->
  property pattern "__type" = VString type -> truthy (VString type) = true ->
  String.eqb type "array" = false -> String.eqb type "object" = false ->
  String.eqb type "observable" = false ->
  check koInstance item pattern name
  = Some (checkType koInstance item (VString type) (name_or_default name)).
Proof.
  intros Hobj Hnull Hu Hn Ha Ht Htruthy H1 H2 H3.
  rewrite (checkObjectPattern_typed koInstance item pattern name type) by assumption.
  rewrite H1, H2, H3.
  destruct (checkType koInstance item (VString type) (name_or_default name)) as [[]|];
    reflexivity.
Qed.

(** *** Fields *)

Lemma check_fields_returns koInstance fields item pattern name :
  check_fields koInstance fields item pattern name = Some (Returns tt)
  <-> Forall (fun prop =>
                checkShorthandPattern (check koInstance) item prop (property pattern prop) name
                = Some (Returns tt)) fields.
Proof.
  induction fields as [|prop fields IH]; simpl.
  - split; [constructor | reflexivity].
  - split.
    + intros H.
      destruct (checkShorthandPattern _ item prop _ name) as [[[]|e]|] eqn:E;
        simpl in H; try discriminate.
      constructor; [exact E | now apply IH].
    + intros H. inversion H as [|? ? Hprop Hrest]; subst.
      rewrite Hprop. simpl. now apply IH.
Qed.

Lemma check_fields_throws koInstance fields item pattern name err :
  check_fields koInstance fields item pattern name = Some (Throws err)
  <-> exists before prop after,
        fields = (before ++ prop :: after)%list
        /\ checkShorthandPattern (check koInstance) item prop (property pattern prop) name
           = Some (Throws err)
        /\ Forall (fun earlier =>
                     checkShorthandPattern (check koInstance) item earlier
                       (property pattern earlier) name
                     = Some (Returns tt)) before.
Proof.
  induction fields as [|prop fields IH]; simpl.
  - split; [discriminate|]. intros (before & p & after & H & _).
    now destruct before.
  - split.
    + intros H.
      destruct (checkShorthandPattern _ item prop _ name) as [[[]|e]|] eqn:E;
        simpl in H; try discriminate.
      * apply IH in H as (before & p & after & -> & Hp & Hbefore).
        exists (prop :: before), p, after.
        split; [reflexivity | split; [exact Hp | now constructor]].
      * injection H as <-. exists [], prop, fields.
        split; [reflexivity | split; [exact E | constructor]].
    + intros (before & p & after & Heq & Hp & Hbefore).
      destruct before as [|b before]; simpl in Heq; injection Heq as <- ->.
      * rewrite Hp. reflexivity.
      * inversion Hbefore as [|? ? Hb Hrest]; subst. rewrite Hb. simpl.
        apply IH. exists before, p, after. auto.
Qed.

(** X13.  An object pattern of type [object] on a value whose [typeof] is
    ["object"]: the check passes exactly when every key other than
    [__type], [__required] and [__nullable] passes as a field path; and it
    raises the error of the first such key, in the order of the keys, whose
    field fails, the keys after it not being looked at. *)
Theorem object_passes_by_fields koInstance item pattern name :
  typeof pattern = "object" -> pattern <> VNull ->
  typeof item = "object" -> item <> VNull ->
  truthy (property pattern "__allowedValues") = false ->
  (if truthy (property pattern "__type") then property pattern "__type"
   else VString "object") = VString "object" ->
  let fields := filter (fun prop => negb (skipped_key prop)) (keys pattern) in
  let field prop :=
    checkShorthandPattern (check koInstance) item prop (property pattern prop)
      (name_or_default name) in
  (check koInstance item pattern name = Some (Returns tt)
   <-> Forall (fun prop => field prop = Some (Returns tt)) fields)
  /\ (forall err,
        check koInstance item pattern name = Some (Throws err)
        <-> exists before prop after,
              fields = (before ++ prop :: after)%list
              /\ field prop = Some (Throws err)
              /\ Forall (fun earlier => field earlier = Some (Returns tt)) before).
Proof.
  intros Hobj Hnull Hitem Hinull Ha Ht fields field.
  assert (Heq : check koInstance item pattern name
                = check_fields koInstance fields item pattern (name_or_default name)).
  { rewrite check_object by assumption. unfold checkObjectPattern.
    assert (strict_equals item VUndefined = false) as ->
        by (destruct item; auto; discriminate).
    assert (strict_equals item VNull = false) as ->
        by (destruct item; auto; congruence).
    rewrite !member_object by assumption. simpl fbind. rewrite Ha. simpl fbind.
    rewrite Ht, checkType_object by assumption. simpl.
    now apply checkProperties_fields. }
  rewrite Heq. split.
  - apply check_fields_returns.
  - intros err. apply check_fields_throws.
Qed.

Lemma append_not_empty (a b : string) : b <> "" -> String.eqb (a ++ b) "" = false.
Proof.
  intros Hb. apply String.eqb_neq. intros H.
  apply (f_equal String.length) in H. rewrite length_append in H.
  destruct b; [congruence | simpl in H; lia].
Qed.

Lemma fbind_done (c : fueled unit) : (c ;;; lift done) = c.
Proof. destruct c as [[[]|e]|]; reflexivity. Qed.

(** The walk of ["a.b"] is the walk of [a] followed by the check of the
    nested pattern. *)
Lemma shorthand_nesting koInstance item a b sub name id mid :
  no_sep "." a = true -> no_sep "." b = true ->
  skipped_key b = false -> String.eqb b "__allowedValues" = false ->
  typeof item = "object" -> Get item a = Returns mid ->
  typeof mid = "object" -> mid <> VNull ->
  checkShorthandPattern (check koInstance) item (a ++ "." ++ b) sub name
  = checkShorthandPattern (check koInstance) item a (VObject id [(b, sub)]) name.
Proof.
  intros Ha Hb Hskip Hallowed Hitem Hget Hmid Hnull.
  assert (Hname : name_or_default (Some (name ++ String "." a)) = name ++ String "." a).
  { unfold name_or_default. simpl truthy.
    rewrite append_not_empty by discriminate. reflexivity. }
  assert (Hu : strict_equals mid VUndefined = false)
    by (destruct mid; auto; discriminate).
  assert (Hn : strict_equals mid VNull = false)
    by (destruct mid; auto; congruence).
  unfold skipped_key in Hskip.
  apply orb_false_elim in Hskip as [Hskip H3].
  apply orb_false_elim in Hskip as [H1 H2].
  unfold checkShorthandPattern.
  change (a ++ "." ++ b) with (a ++ String "." b).
  rewrite (split_token "." a b), (split_single "." a), (split_single "." b) by assumption.
  simpl walk. rewrite Hitem, Hget. simpl. rewrite Hmid. simpl.
  rewrite check_object by reflexivity. rewrite Hname.
  unfold checkObjectPattern. rewrite Hu, Hn.
  simpl member. unfold property. simpl own.
  rewrite Hallowed. simpl fbind. rewrite H1. simpl fbind.
  rewrite checkType_object by assumption. simpl fbind.
  simpl. rewrite H2, H3. simpl.
  unfold property. simpl own. rewrite String.eqb_refl.
  unfold checkShorthandPattern.
  rewrite (split_single "." b) by assumption.
  simpl walk. rewrite Hmid. simpl.
  destruct (Get mid b) as [leaf|e]; simpl; [now rewrite fbind_done | reflexivity].
Qed.

Lemma no_sep_dotted (sep : ascii) (a b : string) :
  no_sep sep (a ++ String sep b) = false.
Proof.
  induction a as [|c a IH]; simpl.
  - now rewrite Ascii.eqb_refl.
  - rewrite IH. apply andb_false_r.
Qed.

Lemma dotted_is_no_name (a b name : string) :
  no_sep "." name = true -> String.eqb (a ++ String "." b) name = false.
Proof.
  intros Hname. apply String.eqb_neq. intros H.
  rewrite <- H, no_sep_dotted in Hname. discriminate.
Qed.

(** An object pattern with one key that is no control key. *)
Lemma single_field koInstance item key sub name id :
  skipped_key key = false -> String.eqb key "__allowedValues" = false ->
  typeof item = "object" -> item <> VNull ->
  check koInstance item (VObject id [(key, sub)]) name
  = checkShorthandPattern (check koInstance) item key sub (name_or_default name).
Proof.
  intros Hskip Hallowed Hitem Hnull.
  assert (Hu : strict_equals item VUndefined = false)
    by (destruct item; auto; discriminate).
  assert (Hn : strict_equals item VNull = false)
    by (destruct item; auto; congruence).
  pose proof Hskip as Hskip'. unfold skipped_key in Hskip'.
  apply orb_false_elim in Hskip' as [Hskip' H3].
  apply orb_false_elim in Hskip' as [H1 H2].
  rewrite check_object by reflexivity.
  unfold checkObjectPattern. rewrite Hu, Hn.
  simpl member. unfold property. simpl own.
  rewrite Hallowed. simpl fbind. rewrite H1. simpl fbind.
  rewrite checkType_object by assumption.
  simpl. rewrite H2, H3. simpl.
  unfold property. simpl own. rewrite String.eqb_refl.
  apply fbind_done.
Qed.

(** X14.  A dotted key is the nesting it stands for, where the value on
    the way is an object: on an [item] whose [typeof] is ["object"] and
    whose property [a] is an object, not [null], the pattern
    [{"a.b": sub}] does what the pattern [{a: {b: sub}}] does, for keys
    [a] and [b] without a dot, neither of them one of [__type],
    [__required], [__nullable] and [__allowedValues]. *)
Theorem dotted_key_is_nesting koInstance item a b sub name id1 id2 id3 mid :
  no_sep "." a = true -> no_sep "." b = true ->
  skipped_key a = false -> String.eqb a "__allowedValues" = false ->
  skipped_key b = false -> String.eqb b "__allowedValues" = false ->
  typeof item = "object" -> Get item a = Returns mid ->
  typeof mid = "object" -> mid <> VNull ->
  check koInstance item (VObject id1 [(a ++ "." ++ b, sub)]) name
  = check koInstance item (VObject id2 [(a, VObject id3 [(b, sub)])]) name.
Proof.
  intros Ha Hb Hskipa Halloweda Hskipb Hallowedb Hitem Hget Hmid Hnull.
  assert (Hinull : item <> VNull) by (intros ->; discriminate).
  rewrite !single_field; try assumption.
  - now apply (shorthand_nesting koInstance item a b sub (name_or_default name) id3 mid).
  - unfold skipped_key. change (a ++ "." ++ b) with (a ++ String "." b).
    now rewrite !dotted_is_no_name.
  - change (a ++ "." ++ b) with (a ++ String "." b). now apply dotted_is_no_name.
Qed.

(** X5.  A value missing on the way of a dotted key and a [null] on the
    way end differently, and in both cases before the sub-pattern is looked
    at: [undefined] raises ["<name>.<a> should have object type!"]; [null],
    whose [typeof] is ["object"], is read and ends in a [TypeError]. *)
Theorem undefined_and_null_on_the_path
    (rec : value -> value -> option string -> fueled unit) item a rest sub name :
  no_sep "." a = true -> typeof item = "object" ->
  (Get item a = Returns VUndefined ->
   checkShorthandPattern rec item (a ++ "." ++ rest) sub name
   = Some (throwPatternError ((name ++ "." ++ a) ++ " should have object type!")))
  /\ (Get item a = Returns VNull ->
      checkShorthandPattern rec item (a ++ "." ++ rest) sub name
      = Some (Throws TypeError)).
Proof.
  intros Ha Hitem. unfold checkShorthandPattern.
  change (a ++ "." ++ rest) with (a ++ String "." rest).
  rewrite (split_token "." a rest) by assumption.
  pose proof (split_not_nil "." rest) as Hne.
  destruct (split "." rest) as [|key keys]; [contradiction|].
  split; intros Hget; simpl; rewrite Hitem, Hget; reflexivity.
Qed.

(** *** Allowed values *)

Lemma NaN_equals_nothing (values : list value) :
  existsb (strict_equals (VNumber NaN)) values = false.
Proof.
  induction values as [|v values IH]; simpl; [reflexivity|].
  rewrite IH. destruct v as [| | | [|z] | | | | |]; reflexivity.
Qed.

(** X15.  [NaN] is never among the allowed values, whatever the list
    holds, [NaN] itself included: [===] does not find it. *)
Theorem NaN_is_never_allowed koInstance pattern name id values :
  typeof pattern = "object" -> pattern <> VNull ->
  property pattern "__allowedValues" = VArray id values ->
  check koInstance (VNumber NaN) pattern name
  = Some (throwPatternError ("The value of " ++ name_or_default name
                             ++ " is not among the allowed ones!")).
Proof.
  intros Hobj Hnull Ha. rewrite check_object by assumption.
  unfold checkObjectPattern. simpl strict_equals. cbv iota.
  rewrite member_object by assumption. simpl fbind. rewrite Ha. simpl.
  unfold lift. now rewrite checkAllowedValues_existsb, NaN_equals_nothing.
Qed.

(** *** extend *)

Lemma Get_read v key : prototype_of v <> None -> Get v key = Returns (read v key).
Proof. unfold read, Get. destruct (prototype_of v); [reflexivity | congruence]. Qed.

Lemma truthy_prototype v : truthy v = true -> prototype_of v <> None.
Proof. destruct v; simpl; discriminate. Qed.

Lemma object_prototype v : typeof v = "object" -> v <> VNull -> prototype_of v <> None.
Proof. destruct v; simpl; congruence. Qed.

Lemma extend_outcome koInstance config :
  typeof config = "object" -> config <> VNull ->
  let ko := if truthy (read config "knockout") then read config "knockout"
            else read config "ko" in
  extend config koInstance
  = if truthy ko then
      if String.eqb (typeof ko) "object"
         && String.eqb (typeof (read ko "isObservable")) "function"
      then (done, ko)
      else (throwConfigError "Invalid 'knockout' parameter given!", koInstance)
    else (throwConfigError "superschema.extend called without any known parameters!",
          koInstance).
Proof.
  intros Hobj Hnull ko.
  pose proof (object_prototype config Hobj Hnull) as Hproto.
  unfold extend, extendSuperSchema, sbind, pure, set_koInstance.
  rewrite Hobj, !(Get_read config) by assumption. simpl.
  assert ((if truthy (read config "knockout") then Returns (read config "knockout")
           else Returns (read config "ko")) = Returns ko) as ->
      by (subst ko; destruct (truthy (read config "knockout")); reflexivity).
  destruct (truthy ko) eqn:Et; simpl; [|reflexivity].
  rewrite (Get_read ko) by now apply truthy_prototype.
  destruct (String.eqb (typeof ko) "object"); simpl; [|reflexivity].
  destruct (String.eqb (typeof (read ko "isObservable")) "function"); reflexivity.
Qed.

Lemma extend_returns_object koInstance config :
  fst (extend config koInstance) = Returns tt ->
  typeof config = "object" /\ config <> VNull.
Proof.
  unfold extend, extendSuperSchema, sbind, pure, set_koInstance.
  destruct config; simpl; try discriminate; split; (reflexivity || discriminate).
Qed.

(** X16.  The errors of [extend].  A [config] whose [typeof] is not
    ["object"] raises ["'config' has to be an object!"]; [null] as
    [config] ends in the [TypeError] of reading its property; every other
    exception of [extend] is a configuration error, and a pattern error is
    never raised. *)
Theorem extend_errors koInstance config :
  (typeof config <> "object" ->
   extend config koInstance
   = (throwConfigError "'config' has to be an object!", koInstance))
  /\ (config = VNull -> extend config koInstance = (Throws TypeError, koInstance))
  /\ (forall e,
        fst (extend config koInstance) = Throws e ->
        is_config_error e \/ (config = VNull /\ e = TypeError)).
Proof.
  split; [|split].
  - intros H%String.eqb_neq.
    unfold extend, extendSuperSchema, sbind, pure. now rewrite H.
  - intros ->. reflexivity.
  - intros e.
    destruct (String.eqb_spec (typeof config) "object") as [Hobj|Hobj].
    + destruct config; try discriminate;
        try (rewrite extend_outcome by (assumption || discriminate);
             cbv zeta;
             repeat match goal with
                    | |- context [if ?c then _ else _] => destruct c
                    end;
             simpl; intros H; try discriminate; injection H as <-; left;
             eexists; reflexivity).
      simpl. intros H. injection H as <-. auto.
    + apply String.eqb_neq in Hobj.
      unfold extend, extendSuperSchema, sbind, pure. rewrite Hobj. simpl.
      intros H. injection H as <-. left. eexists; reflexivity.
Qed.

(** X17.  When [extend] succeeds and what it stores.  For a [config] that
    is an object, the candidate is [config.knockout] when that is truthy
    and [config.ko] otherwise; [extend] returns exactly when the candidate
    is truthy, its [typeof] is ["object"] and its [isObservable] is a
    function, and the handle is then the candidate, whatever the handle was
    before. *)
Theorem extend_succeeds koInstance config :
  typeof config = "object" -> config <> VNull ->
  let ko := if truthy (read config "knockout") then read config "knockout"
            else read config "ko" in
  (fst (extend config koInstance) = Returns tt
   <-> truthy ko = true /\ typeof ko = "object"
       /\ typeof (read ko "isObservable") = "function")
  /\ (fst (extend config koInstance) = Returns tt ->
      snd (extend config koInstance) = ko).
Proof.
  intros Hobj Hnull ko. rewrite (extend_outcome koInstance config Hobj Hnull).
  fold ko. destruct (truthy ko); simpl.
  - destruct (String.eqb_spec (typeof ko) "object") as [E1|E1]; simpl.
    + destruct (String.eqb_spec (typeof (read ko "isObservable")) "function") as [E2|E2];
        simpl; (split; [split|]); auto; try discriminate.
      intros (_ & _ & H). contradiction.
    + (split; [split|]); try discriminate. intros (_ & H & _). contradiction.
  - (split; [split|]); try discriminate. intros (H & _). discriminate.
Qed.

Lemma typeof_function v : typeof v = "function" -> exists f, v = VFunction f.
Proof. destruct v; simpl; try discriminate. eauto. Qed.

(** X18.  After a successful [extend], a check against [observable] asks
    the library: the [isObservable] of the stored handle is called on the
    handle with the value as its argument; a truthy answer passes, any
    other raises ["<name> has to be an observable!"], and an exception of
    the call leaves the check as it is. *)
Theorem observable_after_extend koInstance config :
  fst (extend config koInstance) = Returns tt ->
  let ko := snd (extend config koInstance) in
  exists isObservable,
    read ko "isObservable" = VFunction isObservable
    /\ forall item name,
         strict_equals item VUndefined = false -> strict_equals item VNull = false ->
         check ko item (VString "observable") name
         = Some match invoke isObservable ko [item] with
                | Returns answer =>
                    if truthy answer then Returns tt
                    else throwPatternError
                           (name_or_default name ++ " has to be an observable!")
                | Throws e => Throws e
                end.
Proof.
  intros Hret ko.
  destruct (extend_returns_object koInstance config Hret) as [Hobj Hnull].
  pose proof (extend_outcome koInstance config Hobj Hnull) as Hout. cbv zeta in Hout.
  set (candidate := if truthy (read config "knockout") then read config "knockout"
                    else read config "ko") in Hout.
  assert (Hko : truthy ko = true /\ typeof (read ko "isObservable") = "function").
  { subst ko. rewrite Hout in *.
    destruct (truthy candidate) eqn:Et; [|discriminate].
    destruct (String.eqb (typeof candidate) "object"); [|discriminate].
    destruct (String.eqb_spec (typeof (read candidate "isObservable")) "function");
      [|discriminate].
    simpl. auto. }
  destruct Hko as [Htruthy Hfun].
  destruct (typeof_function _ Hfun) as [f Hf].
  exists f. split; [exact Hf|].
  intros item name Hu Hn. rewrite check_string.
  rewrite checkStringPattern_type by (assumption || reflexivity).
  unfold checkType. simpl. unfold checkObservable.
  rewrite Htruthy, (Get_read ko) by now apply truthy_prototype.
  rewrite Hf. simpl.
  destruct (invoke f ko [item]) as [answer|e]; simpl; [|reflexivity].
  destruct (truthy answer); reflexivity.
Qed.

End Host.

(** ** The claims on concrete inputs *)



(** The pattern [null]: its [typeof] is ["object"], so the dispatcher hands
    it to [checkObjectPattern], and reading [null.__allowedValues] is a
    [TypeError]. *)
Lemma null_pattern_TypeError :
  check example_invoke example_inherited VUndefined (VNumber (Finite 5)) VNull None
  = Some (Throws TypeError).
Proof. reflexivity. Qed.

(** C2 fails for the value [undefined]: [foo] is no type, and yet the error
    is the pattern error of a missing value. *)
Lemma C2_undefined_value :
  slot_truthy (typeCheckers_get example_invoke example_inherited VUndefined "foo") = false
  /\ check example_invoke example_inherited VUndefined VUndefined (VString "foo") None
     = Some (throwPatternError "configObject is mandatory!")
  /\ check example_invoke example_inherited VUndefined VNull (VString "foo") None
     = Some (throwPatternError "configObject shouldn't be null!").
Proof. repeat split. Qed.

(** Why the amended C2 speaks of the lookup and not of the eight registered
    names: the registry object inherits [constructor], the lookup finds it,
    and the type name is accepted. *)
Lemma registry_inherits_constructor :
  assoc "constructor" (typeCheckers example_invoke example_inherited VUndefined) = None
  /\ check example_invoke constructor_inherited VUndefined (VNumber (Finite 5))
       (VString "constructor") None
     = Some (Returns tt).
Proof. split; reflexivity. Qed.

Lemma C2_unknown_type_witness :
  check example_invoke example_inherited VUndefined (VNumber (Finite 5))
    (VString "optional foo") None
  = Some (throwConfigError "Unknown type: foo")
  /\ check example_invoke example_inherited VUndefined (VNumber (Finite 5))
       (VObject 1 [("__type", VString "foo"); ("a", VString "string")]) None
     = Some (throwConfigError "Unknown type: foo").
Proof.
  split.
  - apply (proj1 (C2_unknown_type example_invoke example_inherited VUndefined "foo"
                    eq_refl)).
    + apply type_token_optional; [reflexivity|].
      exact (type_token_here "foo" eq_refl eq_refl).
    + reflexivity.
    + reflexivity.
  - apply (proj2 (C2_unknown_type example_invoke example_inherited VUndefined "foo"
                    eq_refl));
      first [reflexivity | discriminate].
Defined.

(** C3 fails twice.  [__allowedValues] is there and is no array, and the
    check passes; [undefined] is [===] to an element of the list, and the
    check raises. *)
Lemma C3_falsy_list_and_absent_value :
  check example_invoke example_inherited VUndefined (VNumber (Finite 5))
    (VObject 1 [("__allowedValues", VString ""); ("__type", VString "number")]) None
  = Some (Returns tt)
  /\ existsb (strict_equals VUndefined) [VUndefined] = true
  /\ check example_invoke example_inherited VUndefined VUndefined
       (VObject 1 [("__allowedValues", VArray 2 [VUndefined])]) None
     = Some (throwPatternError "configObject is mandatory!").
Proof. repeat split. Qed.

Lemma C3_allowed_values_witness :
  check example_invoke example_inherited VUndefined (VNumber (Finite 2))
    (VObject 1 [("__allowedValues",
                 VArray 2 [VNumber (Finite 1); VNumber (Finite 2); VNumber (Finite 3)])])
    None
  = Some (Returns tt)
  /\ check example_invoke example_inherited VUndefined (VNumber (Finite 5))
       (VObject 1 [("__allowedValues",
                    VArray 2 [VNumber (Finite 1); VNumber (Finite 2); VNumber (Finite 3)])])
       None
     = Some (throwPatternError "The value of configObject is not among the allowed ones!").
Proof.
  split.
  - apply (C3_allowed_values example_invoke example_inherited VUndefined
             (VNumber (Finite 2))
             (VObject 1 [("__allowedValues",
                          VArray 2 [VNumber (Finite 1); VNumber (Finite 2);
                                    VNumber (Finite 3)])]) None);
      first [reflexivity | discriminate].
  - apply (C3_allowed_values example_invoke example_inherited VUndefined
             (VNumber (Finite 5))
             (VObject 1 [("__allowedValues",
                          VArray 2 [VNumber (Finite 1); VNumber (Finite 2);
                                    VNumber (Finite 3)])]) None);
      first [reflexivity | discriminate].
Defined.

(** C4 fails for [__elements] and for [__value]: in a pattern of type
    [object] they are walked as field paths. *)
Lemma C4_elements_is_a_path :
  check example_invoke example_inherited VUndefined (VObject 1 []) (VObject 2 [("__elements", VString "string")]) None
  = Some (throwPatternError "configObject.__elements is mandatory!")
  /\ check example_invoke example_inherited VUndefined (VObject 1 []) (VObject 2 [("__value", VString "string")]) None
     = Some (throwPatternError "configObject.__value is mandatory!").
Proof. split; reflexivity. Qed.

Lemma C4_field_paths_witness :
  check example_invoke example_inherited VUndefined
    (VObject 1 [("a", VNumber (Finite 1)); ("b", VString "x")])
    (VObject 2 [("__type", VString "object"); ("a", VString "number");
                ("__required", VBoolean true); ("b", VString "string")])
    None
  = check_fields example_invoke example_inherited VUndefined ["a"; "b"]
      (VObject 1 [("a", VNumber (Finite 1)); ("b", VString "x")])
      (VObject 2 [("__type", VString "object"); ("a", VString "number");
                  ("__required", VBoolean true); ("b", VString "string")])
      "configObject".
Proof.
  apply (C4_field_paths example_invoke example_inherited VUndefined
           (VObject 1 [("a", VNumber (Finite 1)); ("b", VString "x")])
           (VObject 2 [("__type", VString "object"); ("a", VString "number");
                       ("__required", VBoolean true); ("b", VString "string")])
           None);
    first [reflexivity | discriminate].
Defined.

(** C5 fails for a function value: it does not pass the [object] check. *)
Lemma C5_function_is_no_object :
  check example_invoke example_inherited VUndefined (VFunction 3) (VString "object") None
  = Some (throwPatternError "configObject should have object type!").
Proof. reflexivity. Qed.





Lemma C10_extend_atomic_witness :
  (snd (extend example_inherited (VObject 1 [("knockout", VNumber (Finite 5))]) example_ko)
   = example_ko
   /\ forall item pattern name,
        check example_invoke example_inherited
          (snd (extend example_inherited (VObject 1 [("knockout", VNumber (Finite 5))])
                  example_ko))
          item pattern name
        = check example_invoke example_inherited example_ko item pattern name)
  /\ (snd (extend example_inherited (VObject 1 [("ko", example_ko)]) VUndefined)
      = example_ko
      /\ typeof (snd (extend example_inherited (VObject 1 [("ko", example_ko)]) VUndefined))
         = "object").
Proof.
  split.
  - apply (proj1 (C10_extend_atomic example_invoke example_inherited example_ko
                    (VObject 1 [("knockout", VNumber (Finite 5))]))
             (BackendError "Invalid 'knockout' parameter given!" "INVALID_CONFIG" 500)).
    reflexivity.
  - split; [reflexivity|].
    apply (proj2 (C10_extend_atomic example_invoke example_inherited VUndefined
                    (VObject 1 [("ko", example_ko)]))).
    reflexivity.
Defined.

(** ** The further properties on concrete inputs *)

Lemma tokens_of_pattern_witness :
  currentType_of "array  number" = "array"
  /\ remainingPattern_of "array  number" = " number"
  /\ currentType_of "array" = "array"
  /\ remainingPattern_of "array" = "".
Proof. exact (tokens_of_pattern "array" " number" eq_refl). Defined.

Lemma absent_and_null_by_modifiers_witness :
  check example_invoke example_inherited VUndefined VUndefined
    (VString "nullable optional foo") None
  = Some (Returns tt)
  /\ check example_invoke example_inherited VUndefined VNull (VString "optional foo") None
     = Some (throwPatternError "configObject shouldn't be null!").
Proof.
  split.
  - apply (proj1 (absent_and_null_by_modifiers example_invoke example_inherited VUndefined
                    "nullable optional foo" None)).
    apply has_modifier_later; [right; reflexivity|].
    apply has_modifier_here. reflexivity.
  - apply (proj2 (proj2 (proj2 (absent_and_null_by_modifiers example_invoke
                                  example_inherited VUndefined "optional foo" None)))).
    intros H. inversion H as [p H1 | p H1 H2]; subst; [discriminate|].
    inversion H2 as [q H3 | q [H3|H3] H4]; subst; discriminate.
Defined.

Lemma invalid_pattern_kind_witness :
  check example_invoke example_inherited VUndefined VUndefined (VNumber (Finite 7)) None
  = Some (throwConfigError "Invalid pattern: 7")
  /\ check example_invoke example_inherited VUndefined (VString "x")
       (VNumber (Finite (10 ^ 21))) None
     = Some (throwConfigError "Invalid pattern: 1e+21")
  /\ check example_invoke example_inherited VUndefined VNull
       (VNumber (Finite (2 ^ 60))) None
     = Some (throwConfigError "Invalid pattern: 1152921504606847000")
  /\ check example_invoke example_inherited VUndefined VNull (VBoolean false) None
     = Some (throwConfigError "Invalid pattern: false").
Proof.
  split; [|split; [|split]].
  - apply (invalid_pattern_kind example_invoke example_inherited VUndefined VUndefined
             (VNumber (Finite 7)) None); first [reflexivity | discriminate].
  - apply (invalid_pattern_kind example_invoke example_inherited VUndefined (VString "x")
             (VNumber (Finite (10 ^ 21))) None); first [reflexivity | discriminate].
  - apply (invalid_pattern_kind example_invoke example_inherited VUndefined VNull
             (VNumber (Finite (2 ^ 60))) None); first [reflexivity | discriminate].
  - apply (invalid_pattern_kind example_invoke example_inherited VUndefined VNull
             (VBoolean false) None); first [reflexivity | discriminate].
Defined.

Lemma simple_type_is_typeof_witness :
  check example_invoke example_inherited VUndefined (VString "x") (VString "number") None
  = Some (throwPatternError "configObject should have number type!").
Proof.
  apply (simple_type_is_typeof example_invoke example_inherited VUndefined (VString "x")
           "number" None); [|reflexivity|reflexivity].
  right; right; left. reflexivity.
Defined.

Lemma array_and_date_witness :
  check example_invoke example_inherited VUndefined (VDate 4) (VString "array") None
  = Some (throwPatternError "configObject has to be an array!")
  /\ check example_invoke example_inherited VUndefined (VDate 4) (VString "date") None
     = Some (Returns tt).
Proof.
  apply (array_and_date example_invoke example_inherited VUndefined (VDate 4) None);
    reflexivity.
Defined.

Lemma array_passes_by_elements_witness :
  check example_invoke example_inherited VUndefined (VArray 1 []) (VString "array foo") None
  = Some (Returns tt).
Proof.
  apply (proj2 (array_passes_by_elements example_invoke example_inherited VUndefined
                  1 [] "foo" None ltac:(discriminate))).
Defined.

Lemma array_pattern_elements_witness :
  check example_invoke example_inherited VUndefined (VNumber (Finite 5))
    (VObject 1 [("__type", VString "array"); ("__elements", VString "number")]) None
  = Some (throwPatternError "configObject has to be an array!").
Proof.
  apply (array_pattern_elements example_invoke example_inherited VUndefined
           (VNumber (Finite 5))
           (VObject 1 [("__type", VString "array"); ("__elements", VString "number")])
           None); first [reflexivity | discriminate].
Defined.

Lemma observable_without_library_witness :
  check example_invoke example_inherited VUndefined (VFunction 2)
    (VString "optional observable") None
  = Some (throwConfigError
            "Observable checking is not possible because no knockout instance is given!").
Proof.
  apply (proj1 (observable_without_library example_invoke example_inherited VUndefined
                  eq_refl)).
  - apply type_token_optional; [reflexivity|].
    exact (type_token_here "observable" eq_refl eq_refl).
  - reflexivity.
  - reflexivity.
Defined.

Lemma observable_pattern_value_witness :
  check example_invoke example_inherited example_ko (VFunction 2)
    (VObject 5 [("__type", VString "observable"); ("__value", VString "string")]) None
  = Some (Returns tt).
Proof.
  apply (observable_pattern_value example_invoke example_inherited example_ko
           (VFunction 2)
           (VObject 5 [("__type", VString "observable"); ("__value", VString "string")])
           None); first [reflexivity | discriminate].
Defined.

Lemma leaf_type_pattern_witness :
  check example_invoke example_inherited VUndefined (VString "x")
    (VObject 5 [("__type", VString "string"); ("foo", VString "number")]) None
  = Some (Returns tt).
Proof.
  apply (leaf_type_pattern example_invoke example_inherited VUndefined (VString "x")
           (VObject 5 [("__type", VString "string"); ("foo", VString "number")])
           None "string"); first [reflexivity | discriminate].
Defined.

Lemma object_passes_by_fields_witness :
  check example_invoke example_inherited VUndefined
    (VObject 1 [("a", VNumber (Finite 1))])
    (VObject 2 [("__required", VBoolean true); ("a", VString "number")]) None
  = Some (Returns tt)
  <-> Forall (fun prop =>
                checkShorthandPattern example_inherited
                  (check example_invoke example_inherited VUndefined)
                  (VObject 1 [("a", VNumber (Finite 1))]) prop
                  (property (VObject 2 [("__required", VBoolean true);
                                        ("a", VString "number")]) prop)
                  "configObject"
                = Some (Returns tt)) ["a"].
Proof.
  apply (proj1 (object_passes_by_fields example_invoke example_inherited VUndefined
                  (VObject 1 [("a", VNumber (Finite 1))])
                  (VObject 2 [("__required", VBoolean true); ("a", VString "number")])
                  None eq_refl ltac:(discriminate) eq_refl ltac:(discriminate)
                  eq_refl eq_refl)).
Defined.

Lemma dotted_key_is_nesting_witness :
  check example_invoke example_inherited VUndefined
    (VObject 1 [("a", VObject 2 [("b", VNumber (Finite 5))])])
    (VObject 7 [("a.b", VString "string")]) None
  = check example_invoke example_inherited VUndefined
      (VObject 1 [("a", VObject 2 [("b", VNumber (Finite 5))])])
      (VObject 8 [("a", VObject 9 [("b", VString "string")])]) None.
Proof.
  apply (dotted_key_is_nesting example_invoke example_inherited VUndefined
           (VObject 1 [("a", VObject 2 [("b", VNumber (Finite 5))])]) "a" "b"
           (VString "string") None 7 8 9 (VObject 2 [("b", VNumber (Finite 5))]));
    first [reflexivity | discriminate].
Defined.

Lemma NaN_is_never_allowed_witness :
  check example_invoke example_inherited VUndefined (VNumber NaN)
    (VObject 1 [("__allowedValues", VArray 2 [VNumber NaN; VNumber (Finite 1)])]) None
  = Some (throwPatternError "The value of configObject is not among the allowed ones!").
Proof.
  apply (NaN_is_never_allowed example_invoke example_inherited VUndefined
           (VObject 1 [("__allowedValues", VArray 2 [VNumber NaN; VNumber (Finite 1)])])
           None 2 [VNumber NaN; VNumber (Finite 1)]);
    first [reflexivity | discriminate].
Defined.

Lemma extend_errors_witness :
  extend example_inherited (VNumber (Finite 5)) example_ko
  = (throwConfigError "'config' has to be an object!", example_ko)
  /\ extend example_inherited VNull example_ko = (Throws TypeError, example_ko).
Proof.
  split.
  - apply (proj1 (extend_errors example_inherited example_ko (VNumber (Finite 5)))).
    discriminate.
  - apply (proj1 (proj2 (extend_errors example_inherited example_ko VNull))).
    reflexivity.
Defined.

Lemma extend_succeeds_witness :
  snd (extend example_inherited
         (VObject 1 [("knockout", example_ko); ("ko", VNumber (Finite 5))])
         (VObject 11 []))
  = example_ko.
Proof.
  apply (proj2 (extend_succeeds example_inherited (VObject 11 [])
                  (VObject 1 [("knockout", example_ko); ("ko", VNumber (Finite 5))])
                  eq_refl ltac:(discriminate))).
  reflexivity.
Defined.

Lemma observable_after_extend_witness :
  exists isObservable,
    read example_inherited
      (snd (extend example_inherited (VObject 1 [("ko", example_ko)]) VUndefined))
      "isObservable"
    = VFunction isObservable
    /\ forall item name,
         strict_equals item VUndefined = false -> strict_equals item VNull = false ->
         check example_invoke example_inherited
           (snd (extend example_inherited (VObject 1 [("ko", example_ko)]) VUndefined))
           item (VString "observable") name
         = Some match example_invoke isObservable
                        (snd (extend example_inherited (VObject 1 [("ko", example_ko)])
                                VUndefined))
                        [item] with
                | Returns answer =>
                    if truthy answer then Returns tt
                    else throwPatternError
                           (name_or_default name ++ " has to be an observable!")
                | Throws e => Throws e
                end.
Proof.
  exact (observable_after_extend example_invoke example_inherited VUndefined
           (VObject 1 [("ko", example_ko)]) eq_refl).
Defined.

Lemma undefined_and_null_on_the_path_witness :
  checkShorthandPattern example_inherited
    (check example_invoke example_inherited VUndefined)
    (VObject 1 [("a", VNull)]) "a.b" (VString "optional string") "configObject"
  = Some (Throws TypeError)
  /\ checkShorthandPattern example_inherited
       (check example_invoke example_inherited VUndefined)
       (VObject 1 []) "a.b" (VString "optional string") "configObject"
     = Some (throwPatternError "configObject.a should have object type!").
Proof.
  split.
  - apply (proj2 (undefined_and_null_on_the_path example_inherited
                    (check example_invoke example_inherited VUndefined)
                    (VObject 1 [("a", VNull)]) "a" "b" (VString "optional string")
                    "configObject" eq_refl eq_refl)).
    reflexivity.
  - apply (proj1 (undefined_and_null_on_the_path example_inherited
                    (check example_invoke example_inherited VUndefined)
                    (VObject 1 []) "a" "b" (VString "optional string")
                    "configObject" eq_refl eq_refl)).
    reflexivity.
Defined.
